(** * Debugging-Agent: fault targets and the break injector

    A shallow embedding of the three C++ programs of the repository

    - [test_apps/simple_console/simple_console.cpp]  (module [SimpleConsole])
    - [examples/sample_programs/crash_test.cpp]      (module [CrashTest])
    - [helpers/inject_break/inject_break.cpp]        (module [InjectBreak])

    Every C++ function becomes a computation in the monad [Rt.M]: it takes
    the state of the process, and gives an outcome (normal return, an
    environment fault, a blocked read on standard input, or a loop that
    turns forever), the new state and the events it emitted, in order. *)

From Stdlib Require Import ZArith List String Bool Lia Permutation.
From Stdlib Require Import Floats.PrimFloat Numbers.Cyclic.Int63.Uint63.
Import ListNotations.
Open Scope string_scope.
Open Scope list_scope.
Open Scope Z_scope.

(** ** The runtime the programs run on *)

Module Rt.

(** [int] is 32 bits wide, two's complement; [DWORD] is 32 bits, unsigned. *)
Definition int_min : Z := -2147483648.
Definition int_max : Z := 2147483647.
Definition in_int (z : Z) : Prop := int_min <= z <= int_max.
Definition in_intb (z : Z) : bool := (int_min <=? z) && (z <=? int_max).
Definition wrap32 (z : Z) : Z := (z + 2147483648) mod 4294967296 - 2147483648.
Definition to_DWORD (z : Z) : Z := z mod 4294967296.

(** [static_cast<double>] of an [int]: exact, every [int] is a double. *)
Definition double_of_int (z : Z) : float :=
  if z <? 0 then PrimFloat.opp (PrimFloat.of_uint63 (Uint63.of_Z (- z)))
  else PrimFloat.of_uint63 (Uint63.of_Z z).

(** The fault kinds of the harness, and the environment faults that
    realise them. *)
Inductive FaultKind : Type :=
  | NullDereference | DivisionByZero | StackOverflow | OutOfBoundsAccess.

Inductive access : Type := Read | Write.

Inductive place : Type :=
  | Address (a : Z)                 (* a raw pointer value *)
  | PastArray (len : nat) (idx : Z) (* element [idx] of an array of [len] *).

Inductive fault : Type :=
  | AccessViolation (a : access) (p : place)
  | IntegerDivideByZero
  | StackExhausted.

Definition kind_of (f : fault) : FaultKind :=
  match f with
  | AccessViolation _ (Address _) => NullDereference
  | AccessViolation _ (PastArray _ _) => OutOfBoundsAccess
  | IntegerDivideByZero => DivisionByZero
  | StackExhausted => StackOverflow
  end.

(** What is inserted into [std::cout], one item per [<<]. *)
Inductive item : Type :=
  | Str (s : string)
  | Int (z : Z)
  | Dbl (d : float)
  | Endl.

Inductive event : Type :=
  | Cout (i : item)
  | CinInt (z : Z)
  | CinFail (token : Z)
  | EvOutputDebugString (s : string)
  | EvSleep (ms : Z)
  | EvOpenProcess (desired_access : Z) (inherit : bool) (pid : Z) (h : Z)
  | EvDebugBreakProcess (h : Z) (ok : bool)
  | EvCloseHandle (h : Z).

Definition trace : Type := list event.

(** The mutable state of the process: its mapped memory, by address, and the
    thread's last-error value. *)
Record world : Type := mkWorld {
  memory : Z -> option Z;
  last_error : Z
}.

Definition set_last_error (e : Z) (w : world) : world :=
  mkWorld (memory w) e.

Definition set_memory (p v : Z) (w : world) : world :=
  mkWorld (fun q => if q =? p then Some v else memory w q) (last_error w).

Inductive outcome (A : Type) : Type :=
  | Done (a : A)       (* the function returned [a] to its caller *)
  | Crashed (f : fault) (* an environment fault ended the process *)
  | Starved             (* blocked in [std::cin >>], no input left *)
  | Spinning            (* a loop that turns forever and reads no more *).
Arguments Done {A} a.
Arguments Crashed {A} f.
Arguments Starved {A}.
Arguments Spinning {A}.

Definition M (A : Type) : Type := world -> outcome A * world * trace.

Definition ret {A} (a : A) : M A := fun w => (Done a, w, []).

Definition bind {A B} (m : M A) (k : A -> M B) : M B :=
  fun w =>
    match m w with
    | (Done a, w1, t1) =>
        match k a w1 with
        | (o, w2, t2) => (o, w2, t1 ++ t2)
        end
    | (Crashed f, w1, t1) => (Crashed f, w1, t1)
    | (Starved, w1, t1) => (Starved, w1, t1)
    | (Spinning, w1, t1) => (Spinning, w1, t1)
    end.

Definition crash {A} (f : fault) : M A := fun w => (Crashed f, w, []).
Definition starve {A} : M A := fun w => (Starved, w, []).
Definition spin {A} : M A := fun w => (Spinning, w, []).
Definition emit (es : list event) : M unit := fun w => (Done tt, w, es).

Definition result_of {A} (r : outcome A * world * trace) : outcome A :=
  fst (fst r).
Definition world_of {A} (r : outcome A * world * trace) : world :=
  snd (fst r).
Definition events_of {A} (r : outcome A * world * trace) : trace :=
  snd r.

Module Notations.
Notation "x <- m ;; k" := (bind m (fun x => k))
  (at level 61, m at next level, right associativity).
Notation "m ;; k" := (bind m (fun _ => k))
  (at level 61, right associativity).
End Notations.
Import Notations.

(** [std::cout << i1 << ... << in]. *)
Definition cout (items : list item) : M unit := emit (map Cout items).

(** Raw pointers are addresses; [nullptr] is address zero, and the page at
    zero is never mapped. *)
Definition nullptr : Z := 0.

Definition load (p : Z) : M Z :=
  fun w =>
    if p =? nullptr then (Crashed (AccessViolation Read (Address p)), w, [])
    else match memory w p with
         | Some v => (Done v, w, [])
         | None => (Crashed (AccessViolation Read (Address p)), w, [])
         end.

Definition store (p v : Z) : M unit :=
  fun w =>
    if p =? nullptr then (Crashed (AccessViolation Write (Address p)), w, [])
    else match memory w p with
         | Some _ => (Done tt, set_memory p v w, [])
         | None => (Crashed (AccessViolation Write (Address p)), w, [])
         end.

(** [a[i]] on a built-in array.  Inside the array it is the element.
    Outside, the language leaves the read undefined: [stray len i] is what
    the platform finds there, [None] when the read faults. *)
Definition element (a : list Z) (i : Z) : option Z :=
  if i <? 0 then None else nth_error a (Z.to_nat i).

Definition subscript (stray : nat -> Z -> option Z) (a : list Z) (i : Z)
  : M Z :=
  match element a i with
  | Some v => ret v
  | None =>
      match stray (List.length a) i with
      | Some v => ret v
      | None => crash (AccessViolation Read (PastArray (List.length a) i))
      end
  end.

(** What [std::cin >> choice] stores in an [int] for the number typed: the
    number itself inside the range of [int]; outside the range the
    extraction fails and stores the nearest end of the range. *)
Definition extracted (token : Z) : Z :=
  if token <? int_min then int_min
  else if int_max <? token then int_max
  else token.

(** [x / y] on [int]: a zero divisor traps. *)
Definition int_div (x y : Z) : M Z :=
  if y =? 0 then crash IntegerDivideByZero else ret (wrap32 (Z.quot x y)).

Definition Sleep (ms : Z) : M unit := emit [EvSleep ms].
Definition OutputDebugString (s : string) : M unit :=
  emit [EvOutputDebugString s].

(** [argv[k]], and [argc]. *)
Definition argc (argv : list string) : Z := Z.of_nat (List.length argv).
Definition arg (k : nat) (argv : list string) : string := nth k argv "".

End Rt.

(** ** test_apps/simple_console/simple_console.cpp *)

Module SimpleConsole.
Import Rt Rt.Notations.

Section Programs.

(** What a read past the end of a local array finds on this platform. *)
Variable stray : nat -> Z -> option Z.

Local Notation "a [[ i ]]" := (subscript stray a i) (at level 1).

Definition nullPointerDereference : M unit :=
  let ptr := nullptr in
  cout [Str "Attempting to dereference null pointer..."; Endl];;
  v <- load ptr;;
  cout [Int v; Endl].

Definition divisionByZero : M unit :=
  let x := 5 in
  let y := 0 in
  cout [Str "Attempting to divide by zero..."; Endl];;
  q <- int_div x y;;
  cout [Int q; Endl].

Definition invalidArrayAccess : M unit :=
  let arr := [1; 2; 3; 4; 5] in
  cout [Str "Attempting to access array out of bounds..."; Endl];;
  v <- arr[[10]];;
  cout [Int v; Endl].

(** The body of [for (int i = 0; i < size; i++)], run [n] more times from
    index [i]; it carries [sum], [min] and [max]. *)
Fixpoint stats_for (n : nat) (numbers : list Z) (i sum min max : Z)
  : M (Z * Z * Z) :=
  match n with
  | O => ret (sum, min, max)
  | S n' =>
      x <- numbers[[i]];;
      let sum := wrap32 (sum + x) in
      y <- numbers[[i]];;
      min <- (if y <? min then numbers[[i]] else ret min);;
      z <- numbers[[i]];;
      max <- (if z >? max then numbers[[i]] else ret max);;
      stats_for n' numbers (i + 1) sum min max
  end.

Definition calculateStatistics (numbers : list Z) (size : Z) : M Z :=
  let sum := 0 in
  min <- numbers[[0]];;
  max <- numbers[[0]];;
  r <- stats_for (Z.to_nat size) numbers 0 sum min max;;
  let '(sum, min, max) := r in
  let average := PrimFloat.div (double_of_int sum) (double_of_int size) in
  cout [Str "Sum: "; Int sum; Endl];;
  cout [Str "Min: "; Int min; Endl];;
  cout [Str "Max: "; Int max; Endl];;
  cout [Str "Average: "; Dbl average; Endl];;
  ret sum.

Definition printMenu : M unit :=
  cout [Str "Test App Menu:"; Endl];;
  cout [Str "1. Null Pointer Dereference"; Endl];;
  cout [Str "2. Division by Zero"; Endl];;
  cout [Str "3. Invalid Array Access"; Endl];;
  cout [Str "4. Calculate Statistics"; Endl];;
  cout [Str "5. Exit"; Endl].

Definition runTestMode : M unit :=
  OutputDebugString
    "Running automated test mode, waiting for 5s then starting.";;
  Sleep 5000;;
  let numbers := [40; 74; 129] in
  let size := Z.of_nat (List.length numbers) in
  calculateStatistics numbers size;;
  Sleep 2000;;
  nullPointerDereference.

(** One [switch (choice)]: [Some status] when the arm returns from [main],
    [None] when it breaks out of the switch. *)
Definition menu_switch (numbers : list Z) (size choice : Z) : M (option Z) :=
  match choice with
  | 1 => nullPointerDereference;; ret None
  | 2 => divisionByZero;; ret None
  | 3 => invalidArrayAccess;; ret None
  | 4 => calculateStatistics numbers size;; ret None
  | 5 => ret (Some 0)
  | _ => cout [Str "Invalid choice. Please try again."; Endl];; ret None
  end.

(** [while (true)], reading the numbers typed on standard input, which
    stays open: with nothing typed the program waits.  A number inside the
    range of [int] is the selector of this turn.  A number outside it makes
    [std::cin >> choice] fail: [choice] gets the nearest end of the range,
    and the stream stays in its failed state, which the program never
    clears; so every later [std::cin >> choice] reads nothing and leaves
    [choice] as it is, and each later turn takes the arm this turn took:
    when that arm comes back to the loop, the loop turns forever. *)
Fixpoint menu_loop (numbers : list Z) (size : Z) (input : list Z) : M Z :=
  printMenu;;
  cout [Str "Enter your choice: "];;
  match input with
  | [] => starve
  | token :: rest =>
      if in_intb token then
        let choice := token in
        emit [CinInt choice];;
        returned <- menu_switch numbers size choice;;
        match returned with
        | Some status => ret status
        | None => cout [Endl];; menu_loop numbers size rest
        end
      else
        let choice := extracted token in
        emit [CinFail token];;
        returned <- menu_switch numbers size choice;;
        match returned with
        | Some status => ret status
        | None => cout [Endl];; spin
        end
  end.

Definition test_mode (argv : list string) : bool :=
  (argc argv =? 2) && (arg 1 argv =? "test")%string.

Definition main (argv : list string) (input : list Z) : M Z :=
  if test_mode argv then
    runTestMode;;
    ret 1
  else
    let numbers := [1; 2; 3; 4; 5] in
    let size := Z.of_nat (List.length numbers) in
    menu_loop numbers size input.

End Programs.

End SimpleConsole.

(** ** examples/sample_programs/crash_test.cpp *)

Module CrashTest.
Import Rt Rt.Notations.

Section Programs.

(** [std::atoi] of the C library. *)
Variable atoi : string -> Z.

(** How many more frames the call stack of the process can hold. *)
Variable stack_frames : nat.

Definition cause_access_violation : M unit :=
  let null_ptr := nullptr in
  store null_ptr 42.

(** Each call takes a frame and calls itself again; the recursion has no
    base case, so it stops only when the stack is used up. *)
Fixpoint cause_stack_overflow (frames : nat) : M unit :=
  match frames with
  | O => crash StackExhausted
  | S frames' => cause_stack_overflow frames'
  end.

Definition cause_division_by_zero : M unit :=
  let x := 10 in
  let y := 0 in
  result <- int_div x y;;
  cout [Str "Result: "; Int result; Endl].

(** The selector [main] ends up with: [1], or [atoi (argv[1])]. *)
Definition selector (argv : list string) : Z :=
  let choice := 1 in
  if argc argv >? 1 then atoi (arg 1 argv) else choice.

Definition main (argv : list string) : M Z :=
  cout [Str "Crash Test Program"; Endl];;
  cout [Str "Choose crash type:"; Endl];;
  cout [Str "1. Access Violation"; Endl];;
  cout [Str "2. Stack Overflow"; Endl];;
  cout [Str "3. Division by Zero"; Endl];;
  let choice := selector argv in
  cout [Str "Triggering crash type "; Int choice; Str "..."; Endl];;
  match choice with
  | 1 => cause_access_violation
  | 2 => cause_stack_overflow stack_frames
  | 3 => cause_division_by_zero
  | _ =>
      cout [Str "Invalid choice, defaulting to access violation"; Endl];;
      cause_access_violation
  end;;
  cout [Str "This line should not be reached"; Endl];;
  ret 0.

End Programs.

End CrashTest.

(** ** helpers/inject_break/inject_break.cpp *)

Module InjectBreak.
Import Rt Rt.Notations.

(** From [Windows.h]. *)
Definition NULL : Z := 0.
Definition FALSE : bool := false.
Definition PROCESS_ALL_ACCESS : Z := 2097151.

Section Programs.

(** [atol] of the C library. *)
Variable atol : string -> Z.

(** The answers of the operating system: the handle [OpenProcess] gives
    ([NULL] when it fails) and whether [DebugBreakProcess] succeeds, each
    with the error code it leaves behind when it fails. *)
Variable os_open : Z -> bool -> Z -> Z.
Variable os_open_error : Z -> Z.
Variable os_break : Z -> bool.
Variable os_break_error : Z -> Z.

Definition OpenProcess (desired_access : Z) (inherit : bool) (pid : Z)
  : M Z :=
  fun w =>
    let h := os_open desired_access inherit pid in
    (Done h,
     (if h =? NULL then set_last_error (os_open_error pid) w else w),
     [EvOpenProcess desired_access inherit pid h]).

Definition DebugBreakProcess (h : Z) : M bool :=
  fun w =>
    let ok := os_break h in
    (Done ok,
     (if ok then w else set_last_error (os_break_error h) w),
     [EvDebugBreakProcess h ok]).

Definition CloseHandle (h : Z) : M unit := emit [EvCloseHandle h].

Definition GetLastError : M Z := fun w => (Done (last_error w), w, []).

Definition main (argv : list string) : M Z :=
  if negb (argc argv =? 2) then
    cout [Str "Usage: "; Str (arg 0 argv); Str " <PID>"; Endl];;
    ret 1
  else
    let pid := to_DWORD (atol (arg 1 argv)) in
    hProcess <- OpenProcess PROCESS_ALL_ACCESS FALSE pid;;
    if hProcess =? NULL then
      cout [Str "Failed to open process. Error code: "];;
      e <- GetLastError;;
      cout [Int e; Endl];;
      ret 1
    else
      broke <- DebugBreakProcess hProcess;;
      if negb broke then
        cout [Str "Failed to break into process. Error code: "];;
        e <- GetLastError;;
        cout [Int e; Endl];;
        CloseHandle hProcess;;
        ret 1
      else
        CloseHandle hProcess;;
        ret 0.

End Programs.

(** Handle accounting over a trace: the handles open after the events of
    [t], starting from the handles [held]. *)
Fixpoint open_handles (held : list Z) (t : trace) : list Z :=
  match t with
  | [] => held
  | EvOpenProcess _ _ _ h :: t' =>
      open_handles (if h =? NULL then held else h :: held) t'
  | EvCloseHandle h :: t' =>
      open_handles (remove Z.eq_dec h held) t'
  | _ :: t' => open_handles held t'
  end.

Definition is_close (e : event) : bool :=
  match e with EvCloseHandle _ => true | _ => false end.

Definition is_acquire (e : event) : bool :=
  match e with
  | EvOpenProcess _ _ _ h => negb (h =? NULL)
  | _ => false
  end.

Definition is_open_call (e : event) : bool :=
  match e with EvOpenProcess _ _ _ _ => true | _ => false end.

Definition is_break_call (e : event) : bool :=
  match e with EvDebugBreakProcess _ _ => true | _ => false end.

Definition count (p : event -> bool) (t : trace) : nat :=
  List.length (filter p t).

(** The discipline of the process handle over the events [t] of a run:
    released exactly as often as acquired, acquired (and even asked for) at
    most once, only the acquired handle is released, at most one handle is
    open after any number of events, none is open at the end. *)
Definition handle_discipline (t : trace) : Prop :=
  count is_close t = count is_acquire t
  /\ (count is_acquire t <= 1)%nat
  /\ (count is_open_call t <= 1)%nat
  /\ (forall h, In (EvCloseHandle h) t ->
        h <> NULL /\ exists a i p, In (EvOpenProcess a i p h) t)
  /\ (forall k, (List.length (open_handles [] (firstn k t)) <= 1)%nat)
  /\ open_handles [] t = [].

End InjectBreak.

(** ** What the claims speak of *)

Module Spec.
Import Rt Rt.Notations.

(** The sum of the elements, as a number. *)
Definition sum_of (xs : list Z) : Z := fold_right Z.add 0 xs.

(** No [sum += numbers[i]] leaves the range of [int]. *)
Definition no_overflow (xs : list Z) : Prop :=
  forall k : nat, (k <= List.length xs)%nat -> in_int (sum_of (firstn k xs)).

(** One turn of the statistics loop on the values alone. *)
Definition stats_step (acc : Z * Z * Z) (x : Z) : Z * Z * Z :=
  let '(sum, min, max) := acc in
  (wrap32 (sum + x),
   if x <? min then x else min,
   if x >? max then x else max).

(** The lines [calculateStatistics] prints. *)
Definition stats_lines (sum min max : Z) (average : float) : trace :=
  map Cout [Str "Sum: "; Int sum; Endl;
            Str "Min: "; Int min; Endl;
            Str "Max: "; Int max; Endl;
            Str "Average: "; Dbl average; Endl].

(** The lines [printMenu] prints. *)
Definition menu_lines : trace :=
  map Cout [Str "Test App Menu:"; Endl;
            Str "1. Null Pointer Dereference"; Endl;
            Str "2. Division by Zero"; Endl;
            Str "3. Invalid Array Access"; Endl;
            Str "4. Calculate Statistics"; Endl;
            Str "5. Exit"; Endl].

(** The banner and menu [crash_test] prints first. *)
Definition crash_test_banner : trace :=
  map Cout [Str "Crash Test Program"; Endl;
            Str "Choose crash type:"; Endl;
            Str "1. Access Violation"; Endl;
            Str "2. Stack Overflow"; Endl;
            Str "3. Division by Zero"; Endl].

(** A computation that ends in the fault [f], whatever the state. *)
Definition faults_with {A} (m : M A) (f : fault) : Prop :=
  forall w, result_of (m w) = Crashed f.

(** A computation that never gives control back to its caller. *)
Definition never_returns {A} (m : M A) : Prop :=
  forall w, exists f, result_of (m w) = Crashed f.

Definition writes_through_null {A} (m : M A) : Prop :=
  faults_with m (AccessViolation Write (Address 0)).

Definition reads_through_null {A} (m : M A) : Prop :=
  faults_with m (AccessViolation Read (Address 0)).

(** The selectors [crash_test] knows, and the ones the menu of
    [simple_console] knows. *)
Definition known_code (choice : Z) : bool :=
  (choice =? 1) || (choice =? 2) || (choice =? 3).

Definition menu_code (choice : Z) : bool :=
  (choice =? 1) || (choice =? 2) || (choice =? 3) || (choice =? 4)
  || (choice =? 5).

(** The two fault targets, each run on a command line and on the selectors
    typed on standard input ([crash_test] never reads any). *)
Inductive executable : Type := crash_test | simple_console.

Definition run_main (atoi : string -> Z) (stack_frames : nat)
    (stray : nat -> Z -> option Z)
    (e : executable) (argv : list string) (input : list Z) : M Z :=
  match e with
  | crash_test => CrashTest.main atoi stack_frames argv
  | simple_console => SimpleConsole.main stray argv input
  end.

(** Which function of which program realises which fault kind: the arms of
    the two [switch] statements.  [crash_test] has no out-of-bounds arm,
    [simple_console] no stack-overflow arm. *)
Definition trigger (stack_frames : nat) (stray : nat -> Z -> option Z)
    (e : executable) (k : FaultKind) : option (M unit) :=
  match e, k with
  | crash_test, NullDereference => Some CrashTest.cause_access_violation
  | crash_test, StackOverflow =>
      Some (CrashTest.cause_stack_overflow stack_frames)
  | crash_test, DivisionByZero => Some CrashTest.cause_division_by_zero
  | crash_test, OutOfBoundsAccess => None
  | simple_console, NullDereference =>
      Some SimpleConsole.nullPointerDereference
  | simple_console, DivisionByZero => Some SimpleConsole.divisionByZero
  | simple_console, OutOfBoundsAccess =>
      Some (SimpleConsole.invalidArrayAccess stray)
  | simple_console, StackOverflow => None
  end.

(** The fault kind a run resolved to, when it ended in a fault. *)
Definition resolved_kind {A} (r : outcome A) : option FaultKind :=
  match r with
  | Crashed f => Some (kind_of f)
  | _ => None
  end.

(** Entering the interactive menu: with nothing typed yet the program is
    waiting for a selector, no fault has happened. *)
Definition awaits_selector (run : list Z -> M Z) : Prop :=
  forall w, result_of (run [] w) = Starved.

Definition read_count (t : trace) : nat :=
  List.length
    (filter (fun e => match e with CinInt _ => true | _ => false end) t).

(** Triggering a fault directly: whatever is typed, the run ends in a fault
    and has read nothing. *)
Definition faults_directly (run : list Z -> M Z) : Prop :=
  forall input w,
    (exists f, result_of (run input w) = Crashed f)
    /\ read_count (events_of (run input w)) = 0%nat.

(** A state and answers to run the programs on. *)
Definition w0 : world := mkWorld (fun _ => None) 0.
Definition unmapped : nat -> Z -> option Z := fun _ _ => None.
Definition garbage : nat -> Z -> option Z := fun _ _ => Some (-858993460).

(** A C library's [atoi]/[atol] on strings of decimal digits. *)
Fixpoint digits (s : string) (acc : Z) : Z :=
  match s with
  | EmptyString => acc
  | String c s' =>
      let n := Z.of_nat (Ascii.nat_of_ascii c) in
      if (48 <=? n) && (n <=? 57) then digits s' (10 * acc + (n - 48))
      else acc
  end.
Definition atoi0 : string -> Z := fun s => digits s 0.

(** What a run printed on [std::cout]. *)
Definition is_print (e : event) : bool :=
  match e with Cout _ => true | _ => false end.

Definition printed (t : trace) : trace := filter is_print t.

(** A selector after which the menu loop of [simple_console] asks again:
    not the null dereference (1), not the division (2), not the exit (5),
    and the out-of-bounds read (3) only where that read finds a value. *)
Definition continues (stray : nat -> Z -> option Z) (choice : Z) : bool :=
  match choice with
  | 1 | 2 | 5 => false
  | 3 => match stray 5%nat 10 with Some _ => true | None => false end
  | _ => true
  end.

(** How often the menu was shown. *)
Definition menus_shown (t : trace) : nat :=
  List.length
    (filter (fun e => match e with
                      | Cout (Str "Test App Menu:") => true
                      | _ => false
                      end) t).

End Spec.

(** ** Facts about the runtime *)

Section RuntimeFacts.
Import Rt Rt.Notations Spec.

Lemma bind_pure {A B} (m : M A) (k : A -> M B) (w : world) (a : A) :
  m w = (Done a, w, []) -> bind m k w = k a w.
Proof.
  intros H. unfold bind. rewrite H.
  destruct (k a w) as [[o w2] t2]. reflexivity.
Qed.

Lemma bind_done {A B} (m : M A) (k : A -> M B) (w w1 : world) (a : A) t1 :
  m w = (Done a, w1, t1) ->
  bind m k w
  = (result_of (k a w1), world_of (k a w1), t1 ++ events_of (k a w1)).
Proof.
  intros H. unfold bind. rewrite H.
  destruct (k a w1) as [[o w2] t2]. reflexivity.
Qed.

Lemma bind_crashed {A B} (m : M A) (k : A -> M B) (w w1 : world) f t1 :
  m w = (Crashed f, w1, t1) -> bind m k w = (Crashed f, w1, t1).
Proof. intros H. unfold bind. rewrite H. reflexivity. Qed.

Lemma wrap32_in_int (z : Z) : in_int z -> wrap32 z = z.
Proof.
  unfold in_int, int_min, int_max, wrap32. intros H.
  rewrite Z.mod_small; lia.
Qed.

Lemma in_intb_true (z : Z) : in_int z -> in_intb z = true.
Proof.
  unfold in_int, in_intb. intros [H1 H2].
  apply andb_true_iff. split; now apply Z.leb_le.
Qed.

Lemma in_intb_spec (z : Z) : in_intb z = true <-> in_int z.
Proof.
  unfold in_int, in_intb. rewrite andb_true_iff, !Z.leb_le. tauto.
Qed.

Lemma wrap32_range (z : Z) : in_int (wrap32 z).
Proof.
  unfold in_int, int_min, int_max, wrap32.
  pose proof (Z.mod_pos_bound (z + 2147483648) 4294967296). lia.
Qed.

Lemma wrap32_add_l (a b : Z) : wrap32 (wrap32 a + b) = wrap32 (a + b).
Proof.
  unfold wrap32.
  replace (((a + 2147483648) mod 4294967296 - 2147483648 + b + 2147483648))
    with ((a + 2147483648) mod 4294967296 + b) by lia.
  rewrite Zplus_mod_idemp_l. f_equal. f_equal. lia.
Qed.

Lemma subscript_inside stray (a : list Z) (i v : Z) (w : world) :
  element a i = Some v -> subscript stray a i w = (Done v, w, []).
Proof. intros H. unfold subscript. rewrite H. reflexivity. Qed.

Lemma element_nth (a : list Z) (i : nat) :
  element a (Z.of_nat i) = nth_error a i.
Proof.
  unfold element. destruct (Z.ltb_spec (Z.of_nat i) 0); [lia|].
  now rewrite Nat2Z.id.
Qed.

End RuntimeFacts.

(** ** The statistics loop *)

Section StatisticsFacts.
Import Rt Rt.Notations Spec SimpleConsole.

Variable stray : nat -> Z -> option Z.

Lemma skipn_cons_nth (l : list Z) : forall (i : nat) (x : Z),
  nth_error l i = Some x -> skipn i l = x :: skipn (S i) l.
Proof.
  induction l as [|y l IH]; intros [|i] x H; simpl in H; try discriminate.
  - injection H as ->. reflexivity.
  - change (skipn (S i) (y :: l)) with (skipn i l).
    change (skipn (S (S i)) (y :: l)) with (skipn (S i) l).
    now apply IH.
Qed.

(** Inside the array the loop reads no stray memory, emits nothing and
    folds [stats_step] over the elements it visits. *)
Lemma stats_for_inside (numbers : list Z) (w : world) :
  forall (n i : nat) (sum min max : Z),
    (i + n <= List.length numbers)%nat ->
    stats_for stray n numbers (Z.of_nat i) sum min max w
    = (Done (fold_left stats_step (firstn n (skipn i numbers)) (sum, min, max)),
       w, []).
Proof.
  induction n as [|n IH]; intros i sum min max Hlen.
  - reflexivity.
  - destruct (nth_error numbers i) as [x|] eqn:E;
      [| apply nth_error_None in E; lia].
    rewrite (skipn_cons_nth _ _ _ E).
    assert (Hx : forall w', subscript stray numbers (Z.of_nat i) w'
                            = (Done x, w', [])).
    { intros w'. apply subscript_inside. now rewrite element_nth. }
    cbn [stats_for firstn fold_left stats_step].
    rewrite (bind_pure _ _ w x (Hx w)).
    rewrite (bind_pure _ _ w x (Hx w)).
    rewrite (bind_pure _ _ w (if x <? min then x else min))
      by (destruct (x <? min); [apply Hx | reflexivity]).
    rewrite (bind_pure _ _ w x (Hx w)).
    rewrite (bind_pure _ _ w (if x >? max then x else max))
      by (destruct (x >? max); [apply Hx | reflexivity]).
    replace (Z.of_nat i + 1) with (Z.of_nat (S i)) by lia.
    apply IH. lia.
Qed.

(** What the fold computes: the wrapped sum, and the least and greatest of
    the start values and the elements. *)
Lemma fold_stats (xs : list Z) : forall s mn mx : Z,
  in_int s ->
  exists mn' mx',
    fold_left stats_step xs (s, mn, mx) = (wrap32 (s + sum_of xs), mn', mx')
    /\ (mn' = mn \/ In mn' xs) /\ mn' <= mn /\ Forall (fun x => mn' <= x) xs
    /\ (mx' = mx \/ In mx' xs) /\ mx <= mx' /\ Forall (fun x => x <= mx') xs.
Proof.
  induction xs as [|x xs IH]; intros s mn mx Hs.
  - exists mn, mx. cbn [fold_left sum_of fold_right].
    rewrite Z.add_0_r, (wrap32_in_int s Hs).
    repeat split; auto; lia.
  - cbn [fold_left stats_step].
    destruct (IH (wrap32 (s + x)) (if x <? mn then x else mn)
                 (if x >? mx then x else mx) (wrap32_range _))
      as (mn' & mx' & Heq & Hmn & Hle & Hall & Hmx & Hge & Hall').
    exists mn', mx'. rewrite Heq, wrap32_add_l.
    cbn [sum_of fold_right]. fold (sum_of xs).
    rewrite Z.add_assoc.
    assert (Hlo : mn' <= x /\ mn' <= mn)
      by (destruct (Z.ltb_spec x mn); lia).
    assert (Hhi : x <= mx' /\ mx <= mx')
      by (rewrite Z.gtb_ltb in Hge; destruct (Z.ltb_spec mx x); lia).
    split; [reflexivity|].
    split.
    { destruct Hmn as [->|Hin]; [| right; now right].
      destruct (x <? mn); [right; now left | now left]. }
    split; [lia|]. split; [constructor; [lia | exact Hall]|].
    split.
    { destruct Hmx as [->|Hin]; [| right; now right].
      destruct (x >? mx); [right; now left | now left]. }
    split; [lia|]. constructor; [lia | exact Hall'].
Qed.

(** [calculateStatistics] on an array that holds at least [size] elements,
    [size >= 1]: no fault, the four lines, and the wrapped sum. *)
Lemma calculateStatistics_inside (numbers : list Z) (size : Z) (w : world) :
  1 <= size <= Z.of_nat (List.length numbers) ->
  let xs := firstn (Z.to_nat size) numbers in
  exists mn mx,
    calculateStatistics stray numbers size w
    = (Done (wrap32 (sum_of xs)), w,
       stats_lines (wrap32 (sum_of xs)) mn mx
         (PrimFloat.div (double_of_int (wrap32 (sum_of xs)))
                        (double_of_int size)))
    /\ In mn xs /\ In mx xs /\ Forall (fun x => mn <= x <= mx) xs.
Proof.
  intros Hsize xs.
  destruct numbers as [|x0 rest]; [simpl in Hsize; lia|].
  remember (x0 :: rest) as numbers eqn:En.
  assert (H0 : forall w', subscript stray numbers 0 w' = (Done x0, w', [])).
  { intros w'. apply subscript_inside. now rewrite En. }
  assert (Hxs : exists tl, xs = x0 :: tl).
  { unfold xs. rewrite En.
    destruct (Z.to_nat size) as [|k] eqn:Ek; [lia|].
    now exists (firstn k rest). }
  destruct Hxs as [tl Hxs].
  destruct (fold_stats xs 0 x0 x0) as
    (mn & mx & Heq & Hmn & _ & Hall & Hmx & _ & Hall').
  { unfold in_int, int_min, int_max. lia. }
  exists mn, mx. split.
  - unfold calculateStatistics.
    rewrite (bind_pure _ _ w x0 (H0 w)).
    rewrite (bind_pure _ _ w x0 (H0 w)).
    rewrite (bind_pure _ _ w _ (stats_for_inside numbers w (Z.to_nat size)
                                  0%nat 0 x0 x0 ltac:(simpl; lia))).
    change (skipn 0 numbers) with numbers. fold xs.
    rewrite Heq. reflexivity.
  - assert (Hin0 : In x0 xs) by (rewrite Hxs; now left).
    split; [destruct Hmn as [->|]; assumption|].
    split; [destruct Hmx as [->|]; assumption|].
    rewrite Forall_forall in *. intros x Hx.
    split; [now apply Hall | now apply Hall'].
Qed.

End StatisticsFacts.

(** ** simple_console: test mode, statistics, the menu *)

Section SimpleConsoleFacts.
Import Rt Rt.Notations Spec SimpleConsole.

Variable stray : nat -> Z -> option Z.

(** An unrecognised selector takes the [default:] arm. *)
Lemma menu_switch_default (numbers : list Z) (size choice : Z) :
  menu_code choice = false ->
  menu_switch stray numbers size choice
  = (cout [Str "Invalid choice. Please try again."; Endl];; ret None).
Proof.
  unfold menu_code. intros H.
  destruct choice as [|p|p]; try reflexivity.
  destruct p as [[p|p|]|[p|p|]|]; try reflexivity; try discriminate H;
    destruct p; try reflexivity; discriminate H.
Qed.

(** C1: in test mode the run is, in this order: the debug-log signal, the
    delay of 5000 ms, the statistics over {40, 74, 129} with sum 243, min
    40, max 129 and average 81.0, the delay of 2000 ms, and then the null
    dereference, which ends the run in an access violation (so the
    statistics are complete strictly before the fault). *)
Theorem test_mode_sequence (prog : string) (input : list Z) (w : world) :
  main stray [prog; "test"] input w
  = (Crashed (AccessViolation Read (Address 0)), w,
     [EvOutputDebugString
        "Running automated test mode, waiting for 5s then starting.";
      EvSleep 5000]
     ++ stats_lines 243 40 129 81%float
     ++ [EvSleep 2000;
         Cout (Str "Attempting to dereference null pointer...");
         Cout Endl])
  /\ calculateStatistics stray [40; 74; 129] 3 w
     = (Done 243, w, stats_lines 243 40 129 81%float)
  /\ kind_of (AccessViolation Read (Address 0)) = NullDereference.
Proof.
  split; [|split]; vm_compute; reflexivity.
Qed.

(** C10, as the code has it: on an array holding at least [size >= 1]
    elements, if no [sum += numbers[i]] leaves the range of [int], [calculateStatistics]
    returns the sum of the first [size] elements and prints that sum, the
    least element, the greatest element and, as a double, the sum divided
    by [size].  Element 0 is read whatever [size] is: on an empty array that
    read is out of bounds, and with [size = 0] the average is 0/0, not a
    number. *)
Theorem calculateStatistics_spec (numbers : list Z) (size : Z) (w : world) :
  1 <= size <= Z.of_nat (List.length numbers) ->
  no_overflow (firstn (Z.to_nat size) numbers) ->
  let xs := firstn (Z.to_nat size) numbers in
  (exists mn mx,
     calculateStatistics stray numbers size w
     = (Done (sum_of xs), w,
        stats_lines (sum_of xs) mn mx
          (PrimFloat.div (double_of_int (sum_of xs)) (double_of_int size)))
     /\ In mn xs /\ In mx xs /\ Forall (fun x => mn <= x <= mx) xs)
  /\ (stray 0%nat 0 = None ->
      forall sz w',
        calculateStatistics stray [] sz w'
        = (Crashed (AccessViolation Read (PastArray 0 0)), w', []))
  /\ (forall x rest w',
        calculateStatistics stray (x :: rest) 0 w'
        = (Done 0, w', stats_lines 0 x x PrimFloat.nan)).
Proof.
  intros Hsize Hrange xs. split; [|split].
  - destruct (calculateStatistics_inside stray numbers size w Hsize)
      as (mn & mx & Heq & Hin).
    fold xs in Heq, Hin.
    assert (Hs : wrap32 (sum_of xs) = sum_of xs).
    { apply wrap32_in_int.
      rewrite <- (firstn_all xs) at 1. apply Hrange. fold xs. lia. }
    rewrite Hs in Heq. now exists mn, mx.
  - intros Hstray sz w'. unfold calculateStatistics, subscript.
    cbn [element Z.ltb Z.compare Z.to_nat nth_error List.length].
    rewrite Hstray. reflexivity.
  - intros x rest w'. vm_compute. reflexivity.
Qed.

(** C8: in the interactive loop a selector, an [int], other than 1..5
    prints the re-prompt message and the loop goes on with the next
    selector typed (no fault, no exit), while selector 5 leaves the program
    with status 0. *)
Theorem menu_reprompts_and_quits (argv : list string) (choice : Z)
    (rest : list Z) (w : world) :
  test_mode argv = false ->
  in_int choice ->
  menu_code choice = false ->
  main stray argv (choice :: rest) w
  = (result_of (main stray argv rest w), world_of (main stray argv rest w),
     menu_lines
     ++ [Cout (Str "Enter your choice: "); CinInt choice;
         Cout (Str "Invalid choice. Please try again."); Cout Endl;
         Cout Endl]
     ++ events_of (main stray argv rest w))
  /\ main stray argv (5 :: rest) w
     = (Done 0, w,
        menu_lines ++ [Cout (Str "Enter your choice: "); CinInt 5]).
Proof.
  intros Hmode Hint Hcode. unfold main. rewrite Hmode. split.
  - cbn [menu_loop]. rewrite (in_intb_true _ Hint). cbv zeta.
    rewrite (menu_switch_default _ _ _ Hcode).
    set (k := menu_loop stray _ _ rest).
    cbv beta iota delta [bind printMenu cout emit ret map app].
    destruct (k w) as [[o w'] t]. reflexivity.
  - reflexivity.
Qed.

End SimpleConsoleFacts.

Section SimpleConsoleExamples.
Import Rt Rt.Notations Spec SimpleConsole.

Lemma no_overflow_40_74_129 : no_overflow [40; 74; 129].
Proof.
  intros k Hk. unfold in_int, int_min, int_max.
  destruct k as [|[|[|[|k]]]]; cbn in *; lia.
Defined.

Lemma calculateStatistics_spec_witness :
  1 <= 3 <= Z.of_nat (List.length [40; 74; 129])
  /\ no_overflow (firstn (Z.to_nat 3) [40; 74; 129])
  /\ exists mn mx,
       calculateStatistics garbage [40; 74; 129] 3 w0
       = (Done 243, w0, stats_lines 243 mn mx 81%float)
       /\ In mn [40; 74; 129] /\ In mx [40; 74; 129].
Proof.
  assert (H1 : 1 <= 3 <= Z.of_nat (List.length [40; 74; 129]))
    by (cbn; lia).
  split; [exact H1|]. split; [exact no_overflow_40_74_129|].
  destruct (proj1 (calculateStatistics_spec garbage [40; 74; 129] 3 w0
                     H1 no_overflow_40_74_129))
    as (mn & mx & Heq & Hmn & Hmx & _).
  exists mn, mx. repeat split; assumption.
Defined.

(** C10 as stated fails where the sum does not fit [int]: on
    {2147483647, 1} the function returns -2147483648, not 2147483648. *)
Lemma calculateStatistics_overflow_counterexample :
  result_of (calculateStatistics unmapped [2147483647; 1] 2 w0)
  = Done (-2147483648)
  /\ result_of (calculateStatistics unmapped [2147483647; 1] 2 w0)
     <> Done (sum_of [2147483647; 1]).
Proof.
  split; [vm_compute; reflexivity|].
  vm_compute. intros H. discriminate H.
Qed.

Lemma menu_reprompts_and_quits_witness :
  test_mode ["simple_console"] = false
  /\ in_int 9
  /\ menu_code 9 = false
  /\ result_of (main unmapped ["simple_console"] [9; 5] w0) = Done 0.
Proof.
  assert (H1 : test_mode ["simple_console"] = false) by reflexivity.
  assert (Hi : in_int 9) by (unfold in_int, int_min, int_max; lia).
  assert (H2 : menu_code 9 = false) by reflexivity.
  split; [exact H1|]. split; [exact Hi|]. split; [exact H2|].
  destruct (menu_reprompts_and_quits unmapped ["simple_console"] 9 [5] w0
              H1 Hi H2) as [Hstep _].
  rewrite Hstep. reflexivity.
Defined.

End SimpleConsoleExamples.

(** ** The fault actions and the selectors *)

Section FaultFacts.
Import Rt Rt.Notations Spec.

Variable atoi : string -> Z.
Variable stack_frames : nat.
Variable stray : nat -> Z -> option Z.

(** The recursion of [cause_stack_overflow] uses up any stack. *)
Lemma cause_stack_overflow_exhausts (frames : nat) (w : world) :
  CrashTest.cause_stack_overflow frames w = (Crashed StackExhausted, w, []).
Proof. induction frames as [|n IH]; [reflexivity | exact IH]. Qed.

(** An unknown selector takes the [default:] arm of [crash_test]. *)
Lemma crash_switch_default (choice : Z) (m1 m2 m3 d : M unit) :
  known_code choice = false ->
  match choice with
  | 1 => m1 | 2 => m2 | 3 => m3 | _ => d
  end = d.
Proof.
  unfold known_code. intros H.
  destruct choice as [|p|p]; try reflexivity.
  destruct p as [[p|p|]|[p|p|]|]; try reflexivity; discriminate H.
Qed.

(** [crash_test] ends in a fault on every command line. *)
Lemma crash_test_always_faults (argv : list string) (w : world) :
  exists f,
    result_of (CrashTest.main atoi stack_frames argv w) = Crashed f
    /\ (known_code (CrashTest.selector atoi argv) = false ->
        f = AccessViolation Write (Address 0)).
Proof.
  unfold CrashTest.main.
  destruct (known_code (CrashTest.selector atoi argv)) eqn:K.
  - unfold known_code in K.
    destruct (Z.eqb_spec (CrashTest.selector atoi argv) 1) as [->|_];
      [eexists; split; [reflexivity | discriminate]|].
    destruct (Z.eqb_spec (CrashTest.selector atoi argv) 2) as [->|_].
    { exists StackExhausted. split; [|discriminate].
      cbv beta iota delta [bind cout emit ret map app result_of fst].
      rewrite cause_stack_overflow_exhausts. reflexivity. }
    destruct (Z.eqb_spec (CrashTest.selector atoi argv) 3) as [->|_];
      [eexists; split; [reflexivity | discriminate]|].
    discriminate K.
  - rewrite (crash_switch_default _ _ _ _ _ K).
    eexists. split; reflexivity.
Qed.

(** C5: each fault action ends in an environment fault of its own kind and
    never returns to its caller; the recursion of the stack overflow ends
    in stack exhaustion for every stack size.  The out-of-bounds read alone
    may go on: when the platform finds a value past the array, the action
    prints that value and returns. *)
Theorem fault_actions_do_not_return (e : executable) (k : FaultKind)
    (action : M unit) (w : world) :
  trigger stack_frames stray e k = Some action ->
  match result_of (action w) with
  | Crashed f => kind_of f = k
  | Done _ =>
      k = OutOfBoundsAccess
      /\ exists v,
           stray 5%nat 10 = Some v
           /\ events_of (action w)
              = map Cout [Str "Attempting to access array out of bounds...";
                          Endl; Int v; Endl]
  | Starved => False
  | Spinning => False
  end
  /\ (forall k', exists e' action',
        trigger stack_frames stray e' k' = Some action').
Proof.
  intros H. split;
    [| intros [ | | | ];
       [exists crash_test | exists crash_test | exists crash_test
       | exists simple_console]; eexists; reflexivity].
  destruct e, k; cbn in H; try discriminate H; injection H as <-;
    try reflexivity.
  - unfold result_of. rewrite cause_stack_overflow_exhausts. reflexivity.
  - unfold SimpleConsole.invalidArrayAccess, subscript.
    cbn [element Z.ltb Z.compare Z.to_nat nth_error List.length Pos.to_nat
         Pos.iter_op Nat.add].
    destruct (stray 5%nat 10) as [v|] eqn:S.
    + cbn. split; [reflexivity|]. exists v. split; reflexivity.
    + reflexivity.
Qed.

(** C4, as the code has it: the null-dereference action accesses address
    zero and
    ends in an access violation there; the access is a write in
    [crash_test] ([*null_ptr = 42]) and a read in [simple_console]
    ([std::cout << *ptr]), the action the test mode ends with. *)
Theorem null_dereference_access (e : executable) (action : M unit) :
  trigger stack_frames stray e NullDereference = Some action ->
  match e with
  | crash_test => writes_through_null action
  | simple_console =>
      reads_through_null action
      /\ reads_through_null (SimpleConsole.runTestMode stray)
  end.
Proof.
  intros H. destruct e; cbn in H; injection H as <-.
  - intros w. reflexivity.
  - split; intros w; vm_compute; reflexivity.
Qed.

(** C3: a selector that is none of 1, 2, 3 resolves to the null
    dereference, with the notice that it is the default; the run is the
    same fault as for any other unknown selector, and no command line at
    all is turned down: every run of [crash_test] ends in a fault action. *)
Theorem unknown_selector_defaults (argv argv' : list string) (w : world) :
  known_code (CrashTest.selector atoi argv) = false ->
  known_code (CrashTest.selector atoi argv') = false ->
  CrashTest.main atoi stack_frames argv w
  = (Crashed (AccessViolation Write (Address 0)), w,
     crash_test_banner
     ++ map Cout [Str "Triggering crash type ";
                  Int (CrashTest.selector atoi argv); Str "..."; Endl;
                  Str "Invalid choice, defaulting to access violation";
                  Endl])
  /\ resolved_kind (result_of (CrashTest.main atoi stack_frames argv w))
     = Some NullDereference
  /\ result_of (CrashTest.main atoi stack_frames argv w)
     = result_of (CrashTest.main atoi stack_frames argv' w)
  /\ (forall any w', exists f,
        result_of (CrashTest.main atoi stack_frames any w') = Crashed f).
Proof.
  intros K K'.
  assert (E : forall a, known_code (CrashTest.selector atoi a) = false ->
    CrashTest.main atoi stack_frames a w
    = (Crashed (AccessViolation Write (Address 0)), w,
       crash_test_banner
       ++ map Cout [Str "Triggering crash type ";
                    Int (CrashTest.selector atoi a); Str "..."; Endl;
                    Str "Invalid choice, defaulting to access violation";
                    Endl])).
  { intros a Ka. unfold CrashTest.main.
    rewrite (crash_switch_default _ _ _ _ _ Ka). reflexivity. }
  split; [exact (E argv K)|].
  rewrite (E argv K), (E argv' K').
  split; [reflexivity|]. split; [reflexivity|].
  intros any w'.
  destruct (crash_test_always_faults any w') as (f & Hf & _).
  now exists f.
Qed.

(** C9, as the code has it: started with no argument, [simple_console]
    prints its
    menu, whose first entry is the null dereference, and waits for a
    selector; [crash_test] prints its menu, reads nothing and triggers its
    default, selector 1, the access violation, at once. *)
Theorem no_argument_behaviour (prog : string) :
  awaits_selector (run_main atoi stack_frames stray simple_console [prog])
  /\ (forall w,
        events_of (run_main atoi stack_frames stray simple_console [prog] [] w)
        = menu_lines ++ [Cout (Str "Enter your choice: ")])
  /\ faults_directly (run_main atoi stack_frames stray crash_test [prog])
  /\ (forall input w,
        run_main atoi stack_frames stray crash_test [prog] input w
        = (Crashed (AccessViolation Write (Address 0)), w,
           crash_test_banner
           ++ map Cout [Str "Triggering crash type "; Int 1; Str "...";
                        Endl])).
Proof.
  split; [intros w; reflexivity|].
  split; [intros w; reflexivity|].
  split; [intros input w; split; [eexists|]; reflexivity|].
  intros input w. reflexivity.
Qed.

End FaultFacts.

Section FaultExamples.
Import Rt Rt.Notations Spec.

Lemma fault_actions_do_not_return_witness :
  trigger 64 garbage simple_console OutOfBoundsAccess
  = Some (SimpleConsole.invalidArrayAccess garbage)
  /\ (OutOfBoundsAccess = OutOfBoundsAccess
      /\ exists v,
           garbage 5%nat 10 = Some v
           /\ events_of (SimpleConsole.invalidArrayAccess garbage w0)
              = map Cout [Str "Attempting to access array out of bounds...";
                          Endl; Int v; Endl]).
Proof.
  assert (H : trigger 64 garbage simple_console OutOfBoundsAccess
              = Some (SimpleConsole.invalidArrayAccess garbage))
    by reflexivity.
  split; [exact H|].
  exact (proj1 (fault_actions_do_not_return 64 garbage simple_console
                  OutOfBoundsAccess _ w0 H)).
Defined.

(** C4 as stated fails in [simple_console]: its null dereference reads
    through the null pointer, it does not write. *)
Lemma null_read_counterexample :
  trigger 64 unmapped simple_console NullDereference
  = Some SimpleConsole.nullPointerDereference
  /\ result_of (SimpleConsole.nullPointerDereference w0)
     = Crashed (AccessViolation Read (Address 0))
  /\ ~ writes_through_null SimpleConsole.nullPointerDereference.
Proof.
  split; [reflexivity|]. split; [reflexivity|].
  intros H. specialize (H w0). vm_compute in H. discriminate H.
Qed.

Lemma null_dereference_access_witness :
  trigger 64 unmapped crash_test NullDereference
  = Some CrashTest.cause_access_violation
  /\ writes_through_null CrashTest.cause_access_violation.
Proof.
  assert (H : trigger 64 unmapped crash_test NullDereference
              = Some CrashTest.cause_access_violation) by reflexivity.
  split; [exact H|].
  exact (null_dereference_access 64 unmapped crash_test _ H).
Defined.

Lemma unknown_selector_defaults_witness :
  known_code (CrashTest.selector atoi0 ["crash_test"; "7"]) = false
  /\ known_code (CrashTest.selector atoi0 ["crash_test"; "0"]) = false
  /\ resolved_kind
       (result_of (CrashTest.main atoi0 64 ["crash_test"; "7"] w0))
     = Some NullDereference.
Proof.
  assert (H1 : known_code (CrashTest.selector atoi0 ["crash_test"; "7"])
               = false) by reflexivity.
  assert (H2 : known_code (CrashTest.selector atoi0 ["crash_test"; "0"])
               = false) by reflexivity.
  split; [exact H1|]. split; [exact H2|].
  exact (proj1 (proj2 (unknown_selector_defaults atoi0 64
                         ["crash_test"; "7"] ["crash_test"; "0"] w0 H1 H2))).
Defined.

(** C9 as stated fails for [crash_test]: with no argument it does not wait
    for a selector, it faults at once, whatever is typed. *)
Lemma crash_test_no_argument_counterexample :
  ~ (forall e : executable,
       awaits_selector (run_main atoi0 64 unmapped e ["crash_test"]))
  /\ result_of (run_main atoi0 64 unmapped crash_test ["crash_test"] [] w0)
     = Crashed (AccessViolation Write (Address 0)).
Proof.
  split; [|reflexivity].
  intros H. specialize (H crash_test w0). vm_compute in H. discriminate H.
Qed.

End FaultExamples.

(** ** inject_break: usage, attach, break, release *)

Section InjectBreakFacts.
Import Rt Rt.Notations Spec InjectBreak.

Variable atol : string -> Z.
Variable os_open : Z -> bool -> Z -> Z.
Variable os_open_error : Z -> Z.
Variable os_break : Z -> bool.
Variable os_break_error : Z -> Z.

Local Abbreviation run :=
  (main atol os_open os_open_error os_break os_break_error).

Lemma remove_only (h : Z) : remove Z.eq_dec h [h] = [].
Proof. cbn. destruct (Z.eq_dec h h) as [_|N]; [reflexivity | now elim N]. Qed.

(** The three ways a run with one argument can go, by the answers of the
    operating system. *)
Lemma main_one_argument (prog pid_text : string) (w : world) :
  let pid := to_DWORD (atol pid_text) in
  let h := os_open PROCESS_ALL_ACCESS FALSE pid in
  run [prog; pid_text] w
  = if h =? NULL then
      (Done 1, set_last_error (os_open_error pid) w,
       [EvOpenProcess PROCESS_ALL_ACCESS FALSE pid h;
        Cout (Str "Failed to open process. Error code: ");
        Cout (Int (os_open_error pid)); Cout Endl])
    else if os_break h then
      (Done 0, w,
       [EvOpenProcess PROCESS_ALL_ACCESS FALSE pid h;
        EvDebugBreakProcess h true; EvCloseHandle h])
    else
      (Done 1, set_last_error (os_break_error h) w,
       [EvOpenProcess PROCESS_ALL_ACCESS FALSE pid h;
        EvDebugBreakProcess h false;
        Cout (Str "Failed to break into process. Error code: ");
        Cout (Int (os_break_error h)); Cout Endl; EvCloseHandle h]).
Proof.
  intros pid h. unfold main.
  change (negb (argc [prog; pid_text] =? 2)) with false.
  cbv beta iota zeta delta [bind OpenProcess DebugBreakProcess CloseHandle
                            GetLastError cout emit ret map app arg nth].
  fold pid. fold h.
  destruct (h =? NULL) eqn:E; [reflexivity|].
  destruct (os_break h); reflexivity.
Qed.

Lemma main_wrong_count (argv : list string) (w : world) :
  argc argv <> 2 ->
  run argv w
  = (Done 1, w, map Cout [Str "Usage: "; Str (arg 0 argv); Str " <PID>"; Endl]).
Proof.
  intros H. unfold main.
  destruct (Z.eqb_spec (argc argv) 2) as [E|_]; [contradiction|].
  reflexivity.
Qed.

(** C6: with zero arguments, or with two or more, the program prints the
    usage text and leaves with status 1; it calls neither [OpenProcess] nor
    anything else of the operating system, so no handle is ever opened. *)
Theorem usage_error (prog : string) (args : list string) (w : world) :
  List.length args <> 1%nat ->
  run (prog :: args) w
  = (Done 1, w, map Cout [Str "Usage: "; Str prog; Str " <PID>"; Endl])
  /\ count is_open_call (events_of (run (prog :: args) w)) = 0%nat
  /\ forall k, open_handles [] (firstn k (events_of (run (prog :: args) w)))
               = [].
Proof.
  intros H.
  assert (E : run (prog :: args) w
              = (Done 1, w,
                 map Cout [Str "Usage: "; Str prog; Str " <PID>"; Endl])).
  { apply main_wrong_count. unfold argc. cbn [List.length]. lia. }
  rewrite E. split; [reflexivity|]. split; [reflexivity|].
  intros k. do 5 (destruct k as [|k]; [reflexivity|]). reflexivity.
Qed.

(** C7: with one argument, when [OpenProcess] gives no handle, the program
    prints the attach failure with the error code the system left, and
    leaves with status 1; it has requested no break and released
    nothing. *)
Theorem attach_error (prog pid_text : string) (w : world) :
  os_open PROCESS_ALL_ACCESS FALSE (to_DWORD (atol pid_text)) = NULL ->
  run [prog; pid_text] w
  = (Done 1, set_last_error (os_open_error (to_DWORD (atol pid_text))) w,
     [EvOpenProcess PROCESS_ALL_ACCESS FALSE (to_DWORD (atol pid_text)) NULL;
      Cout (Str "Failed to open process. Error code: ");
      Cout (Int (os_open_error (to_DWORD (atol pid_text)))); Cout Endl])
  /\ count is_break_call (events_of (run [prog; pid_text] w)) = 0%nat
  /\ count is_close (events_of (run [prog; pid_text] w)) = 0%nat.
Proof.
  intros H. rewrite main_one_argument. cbv zeta. rewrite H.
  repeat split.
Qed.

(** Running the handle accounting over an explicit list of events. *)
Ltac walk E :=
  cbn [firstn open_handles]; rewrite ?firstn_nil, ?E;
  cbn [firstn open_handles]; rewrite ?remove_only;
  cbn [firstn open_handles List.length remove]; try lia.

Lemma open_handles_cout (items : list item) :
  forall (held : list Z) (k : nat),
    open_handles held (firstn k (map Cout items)) = held.
Proof.
  induction items as [|i items IH]; intros held [|k]; try reflexivity.
  cbn. apply IH.
Qed.

Lemma filter_cout (p : event -> bool) (items : list item) :
  (forall i, p (Cout i) = false) -> filter p (map Cout items) = [].
Proof.
  intros Hp. induction items as [|i items IH]; [reflexivity|].
  cbn. now rewrite Hp.
Qed.

(** A run that only prints keeps the discipline: it holds no handle. *)
Lemma discipline_cout (items : list item) :
  handle_discipline (map Cout items).
Proof.
  unfold handle_discipline, count.
  rewrite !filter_cout by reflexivity. cbn [List.length].
  repeat split; try lia.
  - apply in_map_iff in H. destruct H as (i & Hi & _). discriminate Hi.
  - apply in_map_iff in H. destruct H as (i & Hi & _). discriminate Hi.
  - intros k. rewrite open_handles_cout. cbn. lia.
  - rewrite <- (firstn_all (map Cout items)). apply open_handles_cout.
Qed.

(** C2: in every run the handle is released exactly as often as it was
    acquired, which is at most once, so exactly once when [OpenProcess]
    gave a handle and never when it gave none or was not called; a
    released handle is the acquired one; at every point of the run at most
    one handle is open, and none is left open at the end. *)
Theorem handle_released_iff_acquired (argv : list string) (w : world) :
  handle_discipline (events_of (run argv w)).
Proof.
  destruct (Z.eq_dec (argc argv) 2) as [E2|N2];
    [| rewrite (main_wrong_count argv w N2); apply discipline_cout].
  destruct argv as [|prog [|pid_text [|extra more]]];
    try (unfold argc in E2; cbn [List.length] in E2; lia).
  rewrite main_one_argument. cbv zeta.
  set (pid := to_DWORD (atol pid_text)).
  set (h := os_open PROCESS_ALL_ACCESS FALSE pid).
  clearbody h pid. unfold handle_discipline, count.
  destruct (h =? NULL) eqn:E.
  - cbn [events_of snd filter is_close is_acquire is_open_call List.length].
    rewrite E. cbn [negb List.length].
    split; [reflexivity|]. split; [lia|]. split; [lia|].
    split; [|split].
    + intros h0 H. destruct H as [H|[H|[H|[H|[]]]]]; discriminate H.
    + intros k. do 4 (destruct k as [|k]; [walk E|]). walk E.
    + walk E. reflexivity.
  - assert (Hh : h <> NULL) by (now apply Z.eqb_neq).
    destruct (os_break h);
      cbn [events_of snd filter is_close is_acquire is_open_call List.length];
      rewrite E; cbn [negb List.length];
      (split; [reflexivity|]; split; [lia|]; split; [lia|];
       split; [|split]).
    all: try (intros k; do 6 (destruct k as [|k]; [walk E|]); walk E).
    all: try (walk E; reflexivity).
    all: intros h0 H;
      repeat (destruct H as [H|H]; [try discriminate H|]);
      try contradiction; injection H as <-;
      (split; [exact Hh|]); exists PROCESS_ALL_ACCESS, FALSE, pid; now left.
Qed.

End InjectBreakFacts.

Section InjectBreakExamples.
Import Rt Rt.Notations Spec InjectBreak.

Lemma usage_error_witness :
  List.length (@nil string) <> 1%nat
  /\ result_of (main atoi0 (fun _ _ _ => 44) (fun _ => 5) (fun _ => true)
                  (fun _ => 6) ["inject_break"] w0) = Done 1.
Proof.
  assert (H : List.length (@nil string) <> 1%nat) by (cbn; lia).
  split; [exact H|].
  rewrite (proj1 (usage_error atoi0 (fun _ _ _ => 44) (fun _ => 5)
                    (fun _ => true) (fun _ => 6) "inject_break" [] w0 H)).
  reflexivity.
Defined.

Lemma attach_error_witness :
  (fun (_ : Z) (_ : bool) (_ : Z) => NULL) PROCESS_ALL_ACCESS FALSE
    (to_DWORD (atoi0 "99999")) = NULL
  /\ events_of (main atoi0 (fun _ _ _ => NULL) (fun _ => 87) (fun _ => true)
                  (fun _ => 6) ["inject_break"; "99999"] w0)
     = [EvOpenProcess PROCESS_ALL_ACCESS FALSE 99999 NULL;
        Cout (Str "Failed to open process. Error code: ");
        Cout (Int 87); Cout Endl].
Proof.
  assert (H : (fun (_ : Z) (_ : bool) (_ : Z) => NULL) PROCESS_ALL_ACCESS
                FALSE (to_DWORD (atoi0 "99999")) = NULL) by reflexivity.
  split; [exact H|].
  rewrite (proj1 (attach_error atoi0 (fun _ _ _ => NULL) (fun _ => 87)
                    (fun _ => true) (fun _ => 6) "inject_break" "99999"
                    w0 H)).
  reflexivity.
Defined.

End InjectBreakExamples.

(** ** inject_break: the other paths, the exit status, the calls made *)

Section InjectBreakPaths.
Import Rt Rt.Notations Spec InjectBreak.

Variable atol : string -> Z.
Variable os_open : Z -> bool -> Z -> Z.
Variable os_open_error : Z -> Z.
Variable os_break : Z -> bool.
Variable os_break_error : Z -> Z.

Local Abbreviation run :=
  (main atol os_open os_open_error os_break os_break_error).

(** The handle [main] gets for a command line. *)
Local Abbreviation handle_for argv :=
  (os_open PROCESS_ALL_ACCESS FALSE (to_DWORD (atol (arg 1 argv)))).

(** X1: with one argument, a handle and a break request that succeeds, the
    run is exactly: open, break, release; it prints nothing, leaves the
    last-error value alone and ends with status 0. *)
Theorem break_success (prog pid_text : string) (w : world) :
  handle_for [prog; pid_text] <> NULL ->
  os_break (handle_for [prog; pid_text]) = true ->
  run [prog; pid_text] w
  = (Done 0, w,
     [EvOpenProcess PROCESS_ALL_ACCESS FALSE (to_DWORD (atol pid_text))
        (handle_for [prog; pid_text]);
      EvDebugBreakProcess (handle_for [prog; pid_text]) true;
      EvCloseHandle (handle_for [prog; pid_text])]).
Proof.
  intros Hh Hb. rewrite main_one_argument. cbv zeta.
  cbn [arg nth] in Hh, Hb.
  apply Z.eqb_neq in Hh. rewrite Hh, Hb. reflexivity.
Qed.

(** X2: with one argument and a handle, when the break request fails the
    program prints the failure with the error code the system left, then
    releases the handle, and ends with status 1. *)
Theorem break_request_error (prog pid_text : string) (w : world) :
  handle_for [prog; pid_text] <> NULL ->
  os_break (handle_for [prog; pid_text]) = false ->
  run [prog; pid_text] w
  = (Done 1,
     set_last_error (os_break_error (handle_for [prog; pid_text])) w,
     [EvOpenProcess PROCESS_ALL_ACCESS FALSE (to_DWORD (atol pid_text))
        (handle_for [prog; pid_text]);
      EvDebugBreakProcess (handle_for [prog; pid_text]) false;
      Cout (Str "Failed to break into process. Error code: ");
      Cout (Int (os_break_error (handle_for [prog; pid_text])));
      Cout Endl;
      EvCloseHandle (handle_for [prog; pid_text])]).
Proof.
  intros Hh Hb. rewrite main_one_argument. cbv zeta.
  cbn [arg nth] in Hh, Hb.
  apply Z.eqb_neq in Hh. rewrite Hh, Hb. reflexivity.
Qed.

(** X3: [main] always returns, with status 0 or 1.  The status is 0
    exactly when there is one argument, [OpenProcess] gave a handle and the
    break request succeeded; and exactly then the program prints
    nothing. *)
Theorem exit_status (argv : list string) (w : world) :
  (result_of (run argv w) = Done 0 \/ result_of (run argv w) = Done 1)
  /\ (result_of (run argv w) = Done 0
      <-> argc argv = 2 /\ handle_for argv <> NULL
          /\ os_break (handle_for argv) = true)
  /\ (result_of (run argv w) = Done 0
      <-> printed (events_of (run argv w)) = []).
Proof.
  destruct (Z.eq_dec (argc argv) 2) as [E2|N2].
  - destruct argv as [|prog [|pid_text [|extra more]]];
      try (unfold argc in E2; cbn [List.length] in E2; lia).
    rewrite main_one_argument. cbv zeta. cbn [arg nth].
    set (h := os_open _ _ _).
    destruct (Z.eqb_spec h NULL) as [Eh|Nh].
    + cbn. repeat split; try (now right); try discriminate;
        intros H; try discriminate H.
      destruct H as (_ & H & _). contradiction.
    + destruct (os_break h) eqn:B; cbn.
      * repeat split; auto.
      * repeat split; try (now right); try discriminate;
          intros H; try discriminate H.
        destruct H as (_ & _ & H). discriminate H.
  - rewrite (main_wrong_count _ _ _ _ _ argv w N2). cbn.
    repeat split; try (now right); try discriminate;
      intros H; try discriminate H.
    destruct H as (H & _). contradiction.
Qed.

(** X4: whatever the command line, [OpenProcess] is only ever asked for
    full access, without inheritance, to the process whose identifier is
    [atol (argv[1])] brought into the range of [DWORD], and a break is only
    ever requested on the handle that call gave, never on [NULL]. *)
Theorem calls_made (argv : list string) (w : world) :
  (forall a i p h,
     In (EvOpenProcess a i p h) (events_of (run argv w)) ->
     a = PROCESS_ALL_ACCESS /\ i = false
     /\ p = atol (arg 1 argv) mod 4294967296
     /\ 0 <= p < 4294967296
     /\ h = handle_for argv)
  /\ (forall h ok,
        In (EvDebugBreakProcess h ok) (events_of (run argv w)) ->
        h <> NULL /\ h = handle_for argv /\ ok = os_break h)
  /\ (count is_break_call (events_of (run argv w)) <= 1)%nat.
Proof.
  assert (R : 0 <= atol (arg 1 argv) mod 4294967296 < 4294967296)
    by (apply Z.mod_pos_bound; lia).
  destruct (Z.eq_dec (argc argv) 2) as [E2|N2].
  - destruct argv as [|prog [|pid_text [|extra more]]];
      try (unfold argc in E2; cbn [List.length] in E2; lia).
    rewrite main_one_argument. cbv zeta. cbn [arg nth] in *.
    unfold to_DWORD. set (h := os_open _ _ _).
    destruct (Z.eqb_spec h NULL) as [Eh|Nh]; [|destruct (os_break h) eqn:B];
      (split; [|split]);
      try (intros a i p h' H; cbn in H;
           repeat (destruct H as [H|H]; [try discriminate H|]);
           try contradiction; injection H as <- <- <- <-;
           repeat split; auto; lia);
      try (intros h' ok H; cbn in H;
           repeat (destruct H as [H|H]; [try discriminate H|]);
           try contradiction; injection H as <- <-;
           repeat split; auto);
      cbn; lia.
  - rewrite (main_wrong_count _ _ _ _ _ argv w N2).
    split; [|split]; try (cbn; lia).
    + intros a i p h H. cbn in H.
      repeat (destruct H as [H|H]; [discriminate H|]). contradiction.
    + intros h ok H. cbn in H.
      repeat (destruct H as [H|H]; [discriminate H|]). contradiction.
Qed.

End InjectBreakPaths.

Section InjectBreakPathExamples.
Import Rt Rt.Notations Spec InjectBreak.

Lemma break_success_witness :
  (fun (_ : Z) (_ : bool) (_ : Z) => 44) PROCESS_ALL_ACCESS FALSE
    (to_DWORD (atoi0 (arg 1 ["inject_break"; "4242"]))) <> NULL
  /\ (fun _ : Z => true) 44 = true
  /\ main atoi0 (fun _ _ _ => 44) (fun _ => 5) (fun _ => true) (fun _ => 6)
       ["inject_break"; "4242"] w0
     = (Done 0, w0,
        [EvOpenProcess PROCESS_ALL_ACCESS FALSE 4242 44;
         EvDebugBreakProcess 44 true; EvCloseHandle 44]).
Proof.
  assert (H1 : (fun (_ : Z) (_ : bool) (_ : Z) => 44) PROCESS_ALL_ACCESS FALSE
                 (to_DWORD (atoi0 (arg 1 ["inject_break"; "4242"]))) <> NULL)
    by (unfold NULL; lia).
  assert (H2 : (fun _ : Z => true) 44 = true) by reflexivity.
  split; [exact H1|]. split; [exact H2|].
  exact (break_success atoi0 (fun _ _ _ => 44) (fun _ => 5) (fun _ => true)
           (fun _ => 6) "inject_break" "4242" w0 H1 H2).
Defined.

Lemma break_request_error_witness :
  (fun (_ : Z) (_ : bool) (_ : Z) => 44) PROCESS_ALL_ACCESS FALSE
    (to_DWORD (atoi0 (arg 1 ["inject_break"; "4242"]))) <> NULL
  /\ (fun _ : Z => false) 44 = false
  /\ main atoi0 (fun _ _ _ => 44) (fun _ => 5) (fun _ => false) (fun _ => 6)
       ["inject_break"; "4242"] w0
     = (Done 1, set_last_error 6 w0,
        [EvOpenProcess PROCESS_ALL_ACCESS FALSE 4242 44;
         EvDebugBreakProcess 44 false;
         Cout (Str "Failed to break into process. Error code: ");
         Cout (Int 6); Cout Endl; EvCloseHandle 44]).
Proof.
  assert (H1 : (fun (_ : Z) (_ : bool) (_ : Z) => 44) PROCESS_ALL_ACCESS FALSE
                 (to_DWORD (atoi0 (arg 1 ["inject_break"; "4242"]))) <> NULL)
    by (unfold NULL; lia).
  assert (H2 : (fun _ : Z => false) 44 = false) by reflexivity.
  split; [exact H1|]. split; [exact H2|].
  exact (break_request_error atoi0 (fun _ _ _ => 44) (fun _ => 5)
           (fun _ => false) (fun _ => 6) "inject_break" "4242" w0 H1 H2).
Defined.

End InjectBreakPathExamples.

(** ** crash_test: the whole run, by selector *)

Section CrashTestRuns.
Import Rt Rt.Notations Spec.

Variable atoi : string -> Z.
Variable stack_frames : nat.

(** Every run of [crash_test] in one equation: the banner, the selector,
    the notice when the selector is unknown, then the fault of the arm
    taken; the state is as it was. *)
Lemma crash_test_run (argv : list string) (w : world) :
  let c := CrashTest.selector atoi argv in
  CrashTest.main atoi stack_frames argv w
  = (Crashed (if c =? 2 then StackExhausted
              else if c =? 3 then IntegerDivideByZero
              else AccessViolation Write (Address 0)),
     w,
     crash_test_banner
     ++ map Cout [Str "Triggering crash type "; Int c; Str "..."; Endl]
     ++ (if known_code c then []
         else map Cout [Str "Invalid choice, defaulting to access violation";
                        Endl])).
Proof.
  cbv zeta. unfold CrashTest.main.
  generalize (CrashTest.selector atoi argv). intros c.
  destruct (known_code c) eqn:K.
  - unfold known_code in K.
    destruct (Z.eqb_spec c 1) as [E|_]; [subst c; reflexivity|].
    destruct (Z.eqb_spec c 2) as [E|_].
    { subst c. cbv beta iota delta [bind cout emit ret map app].
      rewrite cause_stack_overflow_exhausts. reflexivity. }
    destruct (Z.eqb_spec c 3) as [E|_]; [subst c; reflexivity|].
    discriminate K.
  - rewrite (crash_switch_default _ _ _ _ _ K).
    assert (N : (c =? 2) = false /\ (c =? 3) = false).
    { unfold known_code in K.
      destruct (c =? 1), (c =? 2), (c =? 3); try discriminate K. now split. }
    destruct N as [-> ->]. reflexivity.
Qed.

(** X5: a known selector runs its own arm with no notice: 1 ends in the
    write through the null pointer, 2 in the exhaustion of the stack
    (whatever its size), 3 in the integer division by zero; the last line
    printed is the one that names the selector. *)
Theorem known_selector_dispatch (argv : list string) (w : world) :
  known_code (CrashTest.selector atoi argv) = true ->
  CrashTest.main atoi stack_frames argv w
  = (Crashed (match CrashTest.selector atoi argv with
              | 1 => AccessViolation Write (Address 0)
              | 2 => StackExhausted
              | _ => IntegerDivideByZero
              end),
     w,
     crash_test_banner
     ++ map Cout [Str "Triggering crash type ";
                  Int (CrashTest.selector atoi argv); Str "..."; Endl]).
Proof.
  intros K. rewrite crash_test_run. cbv zeta. rewrite K.
  unfold known_code in K.
  destruct (Z.eqb_spec (CrashTest.selector atoi argv) 1) as [->|_];
    [reflexivity|].
  destruct (Z.eqb_spec (CrashTest.selector atoi argv) 2) as [->|_];
    [reflexivity|].
  destruct (Z.eqb_spec (CrashTest.selector atoi argv) 3) as [->|_];
    [reflexivity | discriminate K].
Qed.

(** X6: on no command line does [crash_test] return a status, print its
    last line ([This line should not be reached]) or the [Result: ] of the
    division; and it always leaves the state of the process as it was. *)
Theorem last_line_unreachable (argv : list string) (w : world) :
  (forall status,
     result_of (CrashTest.main atoi stack_frames argv w) <> Done status)
  /\ ~ In (Cout (Str "This line should not be reached"))
         (events_of (CrashTest.main atoi stack_frames argv w))
  /\ ~ In (Cout (Str "Result: "))
         (events_of (CrashTest.main atoi stack_frames argv w))
  /\ world_of (CrashTest.main atoi stack_frames argv w) = w.
Proof.
  rewrite crash_test_run. cbv zeta.
  split; [intros status H; discriminate H|].
  destruct (known_code (CrashTest.selector atoi argv));
    (split; [|split]); try reflexivity;
    intros H; cbn in H;
    repeat (destruct H as [H|H]; [discriminate H|]); contradiction.
Qed.

End CrashTestRuns.

Section CrashTestRunExamples.
Import Rt Rt.Notations Spec.

Lemma known_selector_dispatch_witness :
  known_code (CrashTest.selector atoi0 ["crash_test"; "3"]) = true
  /\ result_of (CrashTest.main atoi0 64 ["crash_test"; "3"] w0)
     = Crashed IntegerDivideByZero.
Proof.
  assert (H : known_code (CrashTest.selector atoi0 ["crash_test"; "3"])
              = true) by reflexivity.
  split; [exact H|].
  rewrite (known_selector_dispatch atoi0 64 ["crash_test"; "3"] w0 H).
  reflexivity.
Defined.

End CrashTestRunExamples.

(** ** simple_console: the menu loop over a whole session *)

Section MenuSessions.
Import Rt Rt.Notations Spec SimpleConsole.

Variable stray : nat -> Z -> option Z.

Local Abbreviation loop := (menu_loop stray [1; 2; 3; 4; 5] 5).

Lemma read_count_app (t1 t2 : trace) :
  read_count (t1 ++ t2) = (read_count t1 + read_count t2)%nat.
Proof. unfold read_count. now rewrite filter_app, length_app. Qed.

Lemma menus_shown_app (t1 t2 : trace) :
  menus_shown (t1 ++ t2) = (menus_shown t1 + menus_shown t2)%nat.
Proof. unfold menus_shown. now rewrite filter_app, length_app. Qed.

(** Test mode is asked for by exactly one argument, the word [test]. *)
Lemma test_mode_true (argv : list string) :
  test_mode argv = true <-> exists prog, argv = [prog; "test"].
Proof.
  unfold test_mode, argc. split.
  - intros H. apply andb_true_iff in H. destruct H as [Hc Ht].
    apply Z.eqb_eq in Hc.
    destruct argv as [|prog [|a [|b more]]]; cbn [List.length] in Hc;
      try lia.
    cbn [arg nth] in Ht. apply String.eqb_eq in Ht. subst a.
    now exists prog.
  - intros [prog ->]. reflexivity.
Qed.

(** The statistics of the array the menu works on. *)
Lemma statistics_of_menu_array (w : world) :
  calculateStatistics stray [1; 2; 3; 4; 5] 5 w
  = (Done 15, w, stats_lines 15 1 5 3%float).
Proof. vm_compute. reflexivity. Qed.

(** One turn of the loop: the menu, the prompt, the selector read, then
    the switch and what follows it. *)
Lemma menu_loop_cons (choice : Z) (rest : list Z) (w : world) :
  in_int choice ->
  loop (choice :: rest) w
  = let r := (returned <- menu_switch stray [1; 2; 3; 4; 5] 5 choice;;
              match returned with
              | Some status => ret status
              | None => cout [Endl];; loop rest
              end) w in
    (result_of r, world_of r,
     menu_lines ++ [Cout (Str "Enter your choice: "); CinInt choice]
     ++ events_of r).
Proof.
  intros Hint. cbn [menu_loop]. rewrite (in_intb_true _ Hint).
  set (X := bind (menu_switch _ _ _ _) _).
  cbv beta iota zeta delta [bind printMenu cout emit map app].
  destruct (X w) as [[o w'] t]. reflexivity.
Qed.

(** A number outside the range of [int] is no selector of the menu, at
    either end of the range. *)
Lemma extracted_outside (token : Z) :
  in_intb token = false ->
  menu_code (extracted token) = false
  /\ (extracted token = int_min \/ extracted token = int_max).
Proof.
  unfold in_intb, extracted, int_min, int_max. intros H.
  destruct (Z.ltb_spec token (-2147483648)); [split; [reflexivity | now left]|].
  destruct (Z.ltb_spec 2147483647 token); [split; [reflexivity | now right]|].
  apply andb_false_iff in H. destruct H as [H|H]; apply Z.leb_gt in H; lia.
Qed.

(** The turn on a number outside the range of [int]: the extraction fails,
    the [default:] arm prints its notice, and from then on the loop turns
    without reading; what was typed after the number is never looked at. *)
Lemma menu_loop_overflow (token : Z) (rest : list Z) (w : world) :
  in_intb token = false ->
  loop (token :: rest) w
  = (Spinning, w,
     menu_lines
     ++ [Cout (Str "Enter your choice: "); CinFail token;
         Cout (Str "Invalid choice. Please try again."); Cout Endl;
         Cout Endl]).
Proof.
  intros H. cbn [menu_loop]. rewrite H. cbv zeta.
  rewrite (menu_switch_default stray _ _ _ (proj1 (extracted_outside _ H))).
  reflexivity.
Qed.

(** A selector that lets the loop go on: its arm returns to the loop,
    leaves the state alone, reads nothing and shows no menu. *)
Lemma switch_continues (choice : Z) :
  continues stray choice = true ->
  exists tc,
    (forall w, menu_switch stray [1; 2; 3; 4; 5] 5 choice w
               = (Done None, w, tc))
    /\ read_count tc = 0%nat /\ menus_shown tc = 0%nat.
Proof.
  intros H. destruct (menu_code choice) eqn:K.
  - unfold menu_code in K.
    destruct (Z.eqb_spec choice 1) as [E|_]; [subst; discriminate H|].
    destruct (Z.eqb_spec choice 2) as [E|_]; [subst; discriminate H|].
    destruct (Z.eqb_spec choice 3) as [E|_].
    { subst. cbn in H. destruct (stray 5%nat 10) as [v|] eqn:S;
        [|discriminate H].
      exists (map Cout [Str "Attempting to access array out of bounds...";
                        Endl; Int v; Endl]).
      split; [|split; reflexivity].
      intros w. cbn [menu_switch]. unfold invalidArrayAccess, subscript.
      cbn [element Z.ltb Z.compare Z.to_nat nth_error List.length
           Pos.to_nat Pos.iter_op Nat.add].
      rewrite S. reflexivity. }
    destruct (Z.eqb_spec choice 4) as [E|_].
    { subst. exists (stats_lines 15 1 5 3%float).
      split; [|split; reflexivity].
      intros w. cbn [menu_switch].
      rewrite (bind_done _ _ w w 15 _ (statistics_of_menu_array w)).
      unfold result_of, world_of, events_of, ret. cbn [fst snd].
      now rewrite app_nil_r. }
    destruct (Z.eqb_spec choice 5) as [E|_]; [subst; discriminate H|].
    discriminate K.
  - exists (map Cout [Str "Invalid choice. Please try again."; Endl]).
    split; [|split; reflexivity].
    intros w. now rewrite (menu_switch_default stray _ _ _ K).
Qed.

(** Selectors that let the loop go on are a prefix the run passes
    through: one menu and one read each, the state untouched. *)
Lemma menu_prefix (hs : list Z) :
  Forall in_int hs ->
  forallb (continues stray) hs = true ->
  exists t,
    read_count t = List.length hs /\ menus_shown t = List.length hs
    /\ forall rest w,
         loop (hs ++ rest) w
         = (result_of (loop rest w), world_of (loop rest w),
            t ++ events_of (loop rest w)).
Proof.
  induction hs as [|c hs IH]; intros Hint H.
  - exists []. split; [reflexivity|]. split; [reflexivity|].
    intros rest w. cbn [app]. destruct (loop rest w) as [[o w'] t].
    reflexivity.
  - cbn [forallb] in H. apply andb_true_iff in H. destruct H as [Hc Hhs].
    apply Forall_cons_iff in Hint. destruct Hint as [Hic Hihs].
    destruct (IH Hihs Hhs) as (t & Hr & Hm & Ht).
    destruct (switch_continues c Hc) as (tc & Hsw & Hrc & Hmc).
    exists (menu_lines ++ [Cout (Str "Enter your choice: "); CinInt c]
            ++ tc ++ [Cout Endl] ++ t).
    split; [|split].
    + rewrite !read_count_app, Hrc, Hr. reflexivity.
    + rewrite !menus_shown_app, Hmc, Hm. reflexivity.
    + intros rest w. cbn [app]. rewrite (menu_loop_cons _ _ _ Hic).
      cbv zeta.
      rewrite (bind_done _ _ w w None tc (Hsw w)).
      rewrite (bind_done _ _ w w tt [Cout Endl]) by reflexivity.
      rewrite Ht. unfold result_of, world_of, events_of. cbn [fst snd].
      f_equal. rewrite <- ?app_assoc. cbn [app]. rewrite <- ?app_assoc.
      reflexivity.
Qed.

End MenuSessions.

Section MenuSessionFacts.
Import Rt Rt.Notations Spec SimpleConsole.

Variable stray : nat -> Z -> option Z.

(** The selectors that end the loop. *)
Lemma stops_cases (choice : Z) :
  continues stray choice = false ->
  choice = 1 \/ choice = 2 \/ choice = 5
  \/ (choice = 3 /\ stray 5%nat 10 = None).
Proof.
  intros H.
  destruct choice as [|[[[p|p|]|[p|p|]|]|[[p|p|]|[p|p|]|]|]|p];
    cbn in H; try discriminate H; auto.
  destruct (stray 5%nat 10); [discriminate H | auto].
Qed.

(** X7: test mode is entered exactly on a command line of one argument
    that is the word [test]; it then reads nothing from standard input.  On
    every other command line the program starts by showing the menu and
    the prompt. *)
Theorem test_mode_selection (argv : list string) (input : list Z)
    (w : world) :
  (test_mode argv = true <-> exists prog, argv = [prog; "test"])
  /\ (test_mode argv = true ->
      read_count (events_of (main stray argv input w)) = 0%nat
      /\ menus_shown (events_of (main stray argv input w)) = 0%nat)
  /\ (test_mode argv = false ->
      exists t,
        events_of (main stray argv input w)
        = menu_lines ++ [Cout (Str "Enter your choice: ")] ++ t).
Proof.
  split; [apply test_mode_true|]. split.
  - intros H. unfold main. rewrite H. split; vm_compute; reflexivity.
  - intros H. unfold main. rewrite H. destruct input as [|c rest].
    + exists []. reflexivity.
    + destruct (in_intb c) eqn:Hc.
      * rewrite (menu_loop_cons _ _ _ _ (proj1 (in_intb_spec c) Hc)).
        cbv zeta.
        eexists. unfold events_of at 1. cbn [snd app]. reflexivity.
      * rewrite (menu_loop_overflow _ _ _ _ Hc).
        eexists. unfold events_of. cbn [snd app]. reflexivity.
Qed.

(** X8: after any selectors, each an [int], that let the loop go on,
    selector 5 ends the program with status 0 and the state as it was; what
    was typed after the 5 is not read: there is one read and one menu per
    selector up to and including the 5. *)
Theorem quit_ends_session (argv : list string) (hs rest : list Z)
    (w : world) :
  test_mode argv = false ->
  Forall in_int hs ->
  forallb (continues stray) hs = true ->
  result_of (main stray argv (hs ++ 5 :: rest) w) = Done 0
  /\ world_of (main stray argv (hs ++ 5 :: rest) w) = w
  /\ read_count (events_of (main stray argv (hs ++ 5 :: rest) w))
     = S (List.length hs)
  /\ menus_shown (events_of (main stray argv (hs ++ 5 :: rest) w))
     = S (List.length hs).
Proof.
  intros Hm Hint Hhs. unfold main. rewrite Hm. cbv zeta.
  destruct (menu_prefix stray hs Hint Hhs) as (t & Hr & Hs & Ht).
  change (Z.of_nat (List.length [1; 2; 3; 4; 5])) with 5.
  rewrite Ht.
  unfold result_of, world_of, events_of. cbn [fst snd].
  rewrite read_count_app, menus_shown_app, Hr, Hs.
  repeat split; try reflexivity.
  - change (read_count _) with 1%nat. lia.
  - change (menus_shown _) with 1%nat. lia.
Qed.

(** X9: after any selectors, each an [int], that let the loop go on, the
    first selector among 1, 2, 3 decides how the program ends: 1 in the
    read through the null pointer, 2 in the integer division by zero, and
    3, where the read past the array finds nothing, in the out-of-bounds
    access violation.  In all three cases what was typed after it is not
    read: there is one read per selector up to and including it. *)
Theorem first_fault_ends_session (argv : list string) (hs rest : list Z)
    (w : world) :
  test_mode argv = false ->
  Forall in_int hs ->
  forallb (continues stray) hs = true ->
  result_of (main stray argv (hs ++ 1 :: rest) w)
  = Crashed (AccessViolation Read (Address 0))
  /\ result_of (main stray argv (hs ++ 2 :: rest) w)
     = Crashed IntegerDivideByZero
  /\ (stray 5%nat 10 = None ->
      result_of (main stray argv (hs ++ 3 :: rest) w)
      = Crashed (AccessViolation Read (PastArray 5 10)))
  /\ (forall c, c = 1 \/ c = 2 \/ (c = 3 /\ stray 5%nat 10 = None) ->
      read_count (events_of (main stray argv (hs ++ c :: rest) w))
      = S (List.length hs)).
Proof.
  intros Hm Hint Hhs. unfold main. rewrite Hm. cbv zeta.
  destruct (menu_prefix stray hs Hint Hhs) as (t & Hr & Hs & Ht).
  assert (I3 : in_int 3) by (unfold in_int, int_min, int_max; lia).
  assert (L3 : stray 5%nat 10 = None ->
               menu_loop stray [1; 2; 3; 4; 5] 5 (3 :: rest) w
               = (Crashed (AccessViolation Read (PastArray 5 10)), w,
                  menu_lines
                  ++ [Cout (Str "Enter your choice: "); CinInt 3;
                      Cout (Str "Attempting to access array out of bounds...");
                      Cout Endl])).
  { intros S. rewrite (menu_loop_cons _ _ _ _ I3). cbv zeta.
    cbn [menu_switch].
    unfold bind at 1. unfold bind at 1.
    unfold invalidArrayAccess, subscript.
    cbn [element Z.ltb Z.compare Z.to_nat nth_error List.length
         Pos.to_nat Pos.iter_op Nat.add].
    rewrite S. reflexivity. }
  change (Z.of_nat (List.length [1; 2; 3; 4; 5])) with 5.
  rewrite !Ht. unfold result_of, events_of. cbn [fst snd].
  split; [reflexivity|]. split; [reflexivity|]. split.
  - intros S. now rewrite (L3 S).
  - intros c [-> | [-> | [-> S]]]; rewrite Ht; cbn [snd];
      rewrite read_count_app, Hr; rewrite ?(L3 S);
      change (read_count _) with 1%nat; lia.
Qed.

(** X10: when all that is typed is selectors, each an [int], that let the
    loop go on, and standard input stays open, the program is left waiting
    for the next selector: it has read every selector, shown the menu once
    more than that, and changed nothing. *)
Theorem session_waits_for_more (argv : list string) (hs : list Z)
    (w : world) :
  test_mode argv = false ->
  Forall in_int hs ->
  forallb (continues stray) hs = true ->
  result_of (main stray argv hs w) = Starved
  /\ world_of (main stray argv hs w) = w
  /\ read_count (events_of (main stray argv hs w)) = List.length hs
  /\ menus_shown (events_of (main stray argv hs w)) = S (List.length hs).
Proof.
  intros Hm Hint Hhs. unfold main. rewrite Hm. cbv zeta.
  destruct (menu_prefix stray hs Hint Hhs) as (t & Hr & Hs & Ht).
  change (Z.of_nat (List.length [1; 2; 3; 4; 5])) with 5.
  assert (E : menu_loop stray [1; 2; 3; 4; 5] 5 hs w
              = menu_loop stray [1; 2; 3; 4; 5] 5 (hs ++ []) w)
    by now rewrite app_nil_r.
  rewrite E, Ht.
  unfold result_of, world_of, events_of. cbn [fst snd].
  rewrite read_count_app, menus_shown_app, Hr, Hs.
  repeat split; try reflexivity.
  - change (read_count _) with 0%nat. lia.
  - change (menus_shown _) with 1%nat. lia.
Qed.

(** X11: the only way [main] returns is selector 5 in the menu, and the
    status is then 0: a run that returns was not in test mode (the
    [return 1] after [runTestMode] is never reached), and what was typed
    is selectors that let the loop go on, then a 5. *)
Theorem returns_only_by_quit (argv : list string) (input : list Z)
    (w : world) (status : Z) :
  result_of (main stray argv input w) = Done status ->
  status = 0
  /\ test_mode argv = false
  /\ exists hs rest,
       input = hs ++ 5 :: rest /\ forallb (continues stray) hs = true.
Proof.
  unfold main. destruct (test_mode argv) eqn:Hm.
  { intros H. vm_compute in H. discriminate H. }
  cbv zeta. change (Z.of_nat (List.length [1; 2; 3; 4; 5])) with 5.
  induction input as [|c rest IH]; intros H.
  { vm_compute in H. discriminate H. }
  destruct (in_intb c) eqn:Hi;
    [| rewrite (menu_loop_overflow _ _ _ _ Hi) in H; discriminate H].
  rewrite (menu_loop_cons _ _ _ _ (proj1 (in_intb_spec c) Hi)) in H.
  cbv zeta in H.
  unfold result_of at 1 in H. cbn [fst] in H.
  destruct (continues stray c) eqn:Hc.
  - destruct (switch_continues stray c Hc) as (tc & Hsw & _ & _).
    rewrite (bind_done _ _ w w None tc (Hsw w)) in H.
    rewrite (bind_done _ _ w w tt [Cout Endl]) in H by reflexivity.
    unfold result_of at 1 2 in H. cbn [fst] in H.
    destruct (IH H) as (H0 & _ & hs & rest' & -> & Hhs).
    split; [exact H0|]. split; [reflexivity|].
    exists (c :: hs), rest'. split; [reflexivity|].
    cbn [forallb]. now rewrite Hc, Hhs.
  - destruct (stops_cases c Hc) as [->|[->|[->|[-> S]]]].
    + vm_compute in H. discriminate H.
    + vm_compute in H. discriminate H.
    + vm_compute in H. injection H as <-.
      split; [reflexivity|]. split; [reflexivity|].
      now exists [], rest.
    + unfold result_of in H. cbn [menu_switch] in H.
      unfold bind at 1 in H. unfold bind at 1 in H.
      unfold invalidArrayAccess, subscript in H.
      cbn [element Z.ltb Z.compare Z.to_nat nth_error List.length
           Pos.to_nat Pos.iter_op Nat.add] in H.
      rewrite S in H. discriminate H.
Qed.

End MenuSessionFacts.

Section MenuSessionExamples.
Import Rt Rt.Notations Spec SimpleConsole.

Lemma quit_ends_session_witness :
  test_mode ["simple_console"] = false
  /\ Forall in_int [4; 3; 9]
  /\ forallb (continues garbage) [4; 3; 9] = true
  /\ result_of (main garbage ["simple_console"] ([4; 3; 9] ++ [5; 1]) w0)
     = Done 0.
Proof.
  assert (H1 : test_mode ["simple_console"] = false) by reflexivity.
  assert (Hi : Forall in_int [4; 3; 9])
    by (repeat (apply Forall_cons;
                  [unfold in_int, int_min, int_max; lia|]);
        apply Forall_nil).
  assert (H2 : forallb (continues garbage) [4; 3; 9] = true) by reflexivity.
  split; [exact H1|]. split; [exact Hi|]. split; [exact H2|].
  exact (proj1 (quit_ends_session garbage ["simple_console"] [4; 3; 9] [1]
                  w0 H1 Hi H2)).
Defined.

Lemma first_fault_ends_session_witness :
  test_mode ["simple_console"; "test"; "now"] = false
  /\ Forall in_int [4; 0]
  /\ forallb (continues unmapped) [4; 0] = true
  /\ result_of (main unmapped ["simple_console"; "test"; "now"]
                  ([4; 0] ++ [2; 5]) w0)
     = Crashed IntegerDivideByZero.
Proof.
  assert (H1 : test_mode ["simple_console"; "test"; "now"] = false)
    by reflexivity.
  assert (Hi : Forall in_int [4; 0])
    by (repeat (apply Forall_cons;
                  [unfold in_int, int_min, int_max; lia|]);
        apply Forall_nil).
  assert (H2 : forallb (continues unmapped) [4; 0] = true) by reflexivity.
  split; [exact H1|]. split; [exact Hi|]. split; [exact H2|].
  exact (proj1 (proj2 (first_fault_ends_session unmapped
                         ["simple_console"; "test"; "now"] [4; 0] [5]
                         w0 H1 Hi H2))).
Defined.

Lemma session_waits_for_more_witness :
  test_mode ["simple_console"] = false
  /\ Forall in_int [7; 4]
  /\ forallb (continues unmapped) [7; 4] = true
  /\ menus_shown (events_of (main unmapped ["simple_console"] [7; 4] w0))
     = 3%nat.
Proof.
  assert (H1 : test_mode ["simple_console"] = false) by reflexivity.
  assert (Hi : Forall in_int [7; 4])
    by (repeat (apply Forall_cons;
                  [unfold in_int, int_min, int_max; lia|]);
        apply Forall_nil).
  assert (H2 : forallb (continues unmapped) [7; 4] = true) by reflexivity.
  split; [exact H1|]. split; [exact Hi|]. split; [exact H2|].
  exact (proj2 (proj2 (proj2 (session_waits_for_more unmapped
                                ["simple_console"] [7; 4] w0 H1 Hi H2)))).
Defined.

Lemma returns_only_by_quit_witness :
  result_of (main unmapped ["simple_console"] [4; 5] w0) = Done 0
  /\ (0 = 0 /\ test_mode ["simple_console"] = false).
Proof.
  assert (H : result_of (main unmapped ["simple_console"] [4; 5] w0)
              = Done 0) by reflexivity.
  split; [exact H|].
  destruct (returns_only_by_quit unmapped ["simple_console"] [4; 5] w0 0 H)
    as (H0 & Hm & _).
  split; [exact H0 | exact Hm].
Defined.

End MenuSessionExamples.

(** ** calculateStatistics beyond the range of [int] and of the array *)

Section StatisticsMore.
Import Rt Rt.Notations Spec SimpleConsole.

Variable stray : nat -> Z -> option Z.

Lemma wrap32_congruent (z : Z) : (wrap32 z - z) mod 4294967296 = 0.
Proof.
  unfold wrap32.
  pose proof (Z.div_mod (z + 2147483648) 4294967296 ltac:(lia)) as E.
  replace ((z + 2147483648) mod 4294967296 - 2147483648 - z)
    with ((- ((z + 2147483648) / 4294967296)) * 4294967296) by lia.
  apply Z_mod_mult.
Qed.

Lemma sum_of_permutation (xs ys : list Z) :
  Permutation xs ys -> sum_of xs = sum_of ys.
Proof.
  induction 1; unfold sum_of in *; cbn [fold_right] in *; lia.
Qed.

(** The loop inside the array for [n1] turns, then [n2] more. *)
Lemma stats_for_split (numbers : list Z) (w : world) (n2 : nat) :
  forall (n1 i : nat) (sum min max : Z),
    (i + n1 <= List.length numbers)%nat ->
    stats_for stray (n1 + n2) numbers (Z.of_nat i) sum min max w
    = (let '(sum', min', max') :=
         fold_left stats_step (firstn n1 (skipn i numbers)) (sum, min, max)
       in stats_for stray n2 numbers (Z.of_nat (i + n1)) sum' min' max' w).
Proof.
  induction n1 as [|n1 IH]; intros i sum min max Hlen.
  - cbn [firstn fold_left Nat.add]. now rewrite Nat.add_0_r.
  - destruct (nth_error numbers i) as [x|] eqn:E;
      [| apply nth_error_None in E; lia].
    rewrite (skipn_cons_nth _ _ _ E).
    assert (Hx : forall w', subscript stray numbers (Z.of_nat i) w'
                            = (Done x, w', [])).
    { intros w'. apply subscript_inside. now rewrite element_nth. }
    cbn [Nat.add stats_for firstn fold_left stats_step].
    rewrite (bind_pure _ _ w x (Hx w)).
    rewrite (bind_pure _ _ w x (Hx w)).
    rewrite (bind_pure _ _ w (if x <? min then x else min))
      by (destruct (x <? min); [apply Hx | reflexivity]).
    rewrite (bind_pure _ _ w x (Hx w)).
    rewrite (bind_pure _ _ w (if x >? max then x else max))
      by (destruct (x >? max); [apply Hx | reflexivity]).
    replace (Z.of_nat i + 1) with (Z.of_nat (S i)) by lia.
    rewrite IH by lia.
    replace (S i + n1)%nat with (i + S n1)%nat by lia. reflexivity.
Qed.

(** X12: on an array holding at least [size >= 1] elements, whatever the
    elements, [calculateStatistics] returns; it leaves the state alone, the
    value returned is the one printed as the sum, it lies in the range of
    [int] and differs from the true sum by a multiple of 2^32; the minimum
    and maximum printed are elements, bound all elements, and the minimum
    is not above the maximum. *)
Theorem statistics_modulo (numbers : list Z) (size : Z) (w : world) :
  1 <= size <= Z.of_nat (List.length numbers) ->
  let xs := firstn (Z.to_nat size) numbers in
  exists s mn mx,
    calculateStatistics stray numbers size w
    = (Done s, w,
       stats_lines s mn mx
         (PrimFloat.div (double_of_int s) (double_of_int size)))
    /\ in_int s /\ (s - sum_of xs) mod 4294967296 = 0
    /\ In mn xs /\ In mx xs /\ Forall (fun x => mn <= x <= mx) xs
    /\ mn <= mx.
Proof.
  intros Hsize xs.
  destruct (calculateStatistics_inside stray numbers size w Hsize)
    as (mn & mx & Heq & Hmn & Hmx & Hall).
  fold xs in Heq, Hmn, Hmx, Hall.
  exists (wrap32 (sum_of xs)), mn, mx.
  split; [exact Heq|]. split; [apply wrap32_range|].
  split; [apply wrap32_congruent|].
  repeat split; try assumption.
  rewrite Forall_forall in Hall. destruct (Hall mn Hmn). lia.
Qed.

(** X13: the statistics of a whole array do not depend on the order of its
    elements: on a rearrangement of the array the function returns the same
    value and prints the same four lines. *)
Theorem statistics_ignore_order (numbers numbers' : list Z) (w : world) :
  Permutation numbers numbers' ->
  numbers <> [] ->
  calculateStatistics stray numbers (Z.of_nat (List.length numbers)) w
  = calculateStatistics stray numbers' (Z.of_nat (List.length numbers')) w.
Proof.
  intros P Hne.
  assert (L : List.length numbers' = List.length numbers)
    by (symmetry; now apply Permutation_length).
  assert (Hsize : 1 <= Z.of_nat (List.length numbers)
                  <= Z.of_nat (List.length numbers)).
  { destruct numbers; [contradiction | cbn [List.length]; lia]. }
  destruct (calculateStatistics_inside stray numbers _ w Hsize)
    as (mn & mx & Heq & Hmn & Hmx & Hall).
  assert (Hsize' : 1 <= Z.of_nat (List.length numbers')
                   <= Z.of_nat (List.length numbers')) by (rewrite L; lia).
  destruct (calculateStatistics_inside stray numbers' _ w Hsize')
    as (mn' & mx' & Heq' & Hmn' & Hmx' & Hall').
  rewrite Nat2Z.id, firstn_all in *.
  rewrite Heq, Heq', L, (sum_of_permutation _ _ P).
  rewrite Forall_forall in Hall, Hall'.
  assert (mn = mn').
  { pose proof (Hall mn' (Permutation_in _ (Permutation_sym P) Hmn')).
    pose proof (Hall' mn (Permutation_in _ P Hmn)). lia. }
  assert (mx = mx').
  { pose proof (Hall mx' (Permutation_in _ (Permutation_sym P) Hmx')).
    pose proof (Hall' mx (Permutation_in _ P Hmx)). lia. }
  subst. reflexivity.
Qed.

(** X14: when [size] is more than the array holds and the read just past
    the array faults, [calculateStatistics] ends in that access violation,
    at the index equal to the length, and has printed nothing: the four
    lines come only after the loop. *)
Theorem statistics_past_the_end (numbers : list Z) (size : Z) (w : world) :
  numbers <> [] ->
  Z.of_nat (List.length numbers) < size ->
  stray (List.length numbers) (Z.of_nat (List.length numbers)) = None ->
  calculateStatistics stray numbers size w
  = (Crashed (AccessViolation Read
                (PastArray (List.length numbers)
                           (Z.of_nat (List.length numbers)))),
     w, []).
Proof.
  intros Hne Hsize Hstray.
  destruct numbers as [|x0 rest]; [contradiction|].
  remember (x0 :: rest) as numbers eqn:En.
  assert (H0 : forall w', subscript stray numbers 0 w' = (Done x0, w', [])).
  { intros w'. apply subscript_inside. now rewrite En. }
  unfold calculateStatistics.
  rewrite (bind_pure _ _ w x0 (H0 w)).
  rewrite (bind_pure _ _ w x0 (H0 w)).
  assert (Hn : exists n2, Z.to_nat size = (List.length numbers + S n2)%nat).
  { exists (Z.to_nat size - List.length numbers - 1)%nat. lia. }
  destruct Hn as [n2 ->].
  apply bind_crashed.
  rewrite (stats_for_split numbers w (S n2) (List.length numbers) 0)
    by (cbn; lia).
  destruct (fold_left stats_step _ _) as [[s mn] mx].
  cbn [Nat.add stats_for].
  apply bind_crashed.
  unfold subscript. rewrite element_nth.
  replace (nth_error numbers (List.length numbers)) with (@None Z)
    by (symmetry; apply nth_error_None; lia).
  rewrite Hstray. reflexivity.
Qed.

End StatisticsMore.

Section StatisticsMoreExamples.
Import Rt Rt.Notations Spec SimpleConsole.

Lemma statistics_modulo_witness :
  1 <= 2 <= Z.of_nat (List.length [2147483647; 1; 5])
  /\ exists s mn mx,
       calculateStatistics unmapped [2147483647; 1; 5] 2 w0
       = (Done s, w0,
          stats_lines s mn mx
            (PrimFloat.div (double_of_int s) (double_of_int 2)))
       /\ in_int s.
Proof.
  assert (H : 1 <= 2 <= Z.of_nat (List.length [2147483647; 1; 5]))
    by (cbn; lia).
  split; [exact H|].
  destruct (statistics_modulo unmapped [2147483647; 1; 5] 2 w0 H)
    as (s & mn & mx & Heq & Hin & _).
  exists s, mn, mx. split; assumption.
Defined.

Lemma statistics_ignore_order_witness :
  Permutation [40; 74; 129] [129; 40; 74]
  /\ [40; 74; 129] <> []
  /\ calculateStatistics garbage [40; 74; 129] 3 w0
     = calculateStatistics garbage [129; 40; 74] 3 w0.
Proof.
  assert (P : Permutation [40; 74; 129] [129; 40; 74])
    by exact (Permutation_sym (Permutation_cons_append [40; 74] 129)).
  assert (N : [40; 74; 129] <> []) by discriminate.
  split; [exact P|]. split; [exact N|].
  exact (statistics_ignore_order garbage _ _ w0 P N).
Defined.

Lemma statistics_past_the_end_witness :
  [1; 2] <> []
  /\ Z.of_nat (List.length [1; 2]) < 3
  /\ unmapped (List.length [1; 2]) (Z.of_nat (List.length [1; 2])) = None
  /\ result_of (calculateStatistics unmapped [1; 2] 3 w0)
     = Crashed (AccessViolation Read (PastArray 2 2)).
Proof.
  assert (H1 : [1; 2] <> []) by discriminate.
  assert (H2 : Z.of_nat (List.length [1; 2]) < 3) by (cbn; lia).
  assert (H3 : unmapped (List.length [1; 2])
                 (Z.of_nat (List.length [1; 2])) = None) by reflexivity.
  split; [exact H1|]. split; [exact H2|]. split; [exact H3|].
  rewrite (statistics_past_the_end unmapped [1; 2] 3 w0 H1 H2 H3).
  reflexivity.
Defined.

End StatisticsMoreExamples.

(** ** simple_console: a number that is no [int] *)

Section FailedStream.
Import Rt Rt.Notations Spec SimpleConsole.

Variable stray : nat -> Z -> option Z.

(** X15: after any selectors, each an [int], that let the loop go on, a
    number outside the range of [int] jams the menu: the extraction fails,
    the program prints the invalid-choice notice and then turns in the loop
    forever; it neither returns nor faults, it reads nothing more, so what
    was typed after the number makes no difference. *)
Theorem overflow_jams_menu (argv : list string) (hs : list Z) (token : Z)
    (rest : list Z) (w : world) :
  test_mode argv = false ->
  Forall in_int hs ->
  forallb (continues stray) hs = true ->
  ~ in_int token ->
  result_of (main stray argv (hs ++ token :: rest) w) = Spinning
  /\ world_of (main stray argv (hs ++ token :: rest) w) = w
  /\ read_count (events_of (main stray argv (hs ++ token :: rest) w))
     = List.length hs
  /\ In (Cout (Str "Invalid choice. Please try again."))
        (events_of (main stray argv (hs ++ token :: rest) w))
  /\ main stray argv (hs ++ token :: rest) w
     = main stray argv (hs ++ [token]) w.
Proof.
  intros Hm Hint Hhs Hout. unfold main. rewrite Hm. cbv zeta.
  destruct (menu_prefix stray hs Hint Hhs) as (t & Hr & Hs & Ht).
  change (Z.of_nat (List.length [1; 2; 3; 4; 5])) with 5.
  assert (Hb : in_intb token = false).
  { destruct (in_intb token) eqn:E; [|reflexivity].
    apply in_intb_spec in E. contradiction. }
  rewrite !Ht, !(menu_loop_overflow _ _ _ _ Hb).
  unfold result_of, world_of, events_of. cbn [fst snd].
  split; [reflexivity|]. split; [reflexivity|]. split; [|split].
  - rewrite read_count_app, Hr.
    change (read_count _) with 0%nat. lia.
  - apply in_or_app. right. apply in_or_app. right.
    cbn. tauto.
  - reflexivity.
Qed.

End FailedStream.

Section FailedStreamExamples.
Import Rt Rt.Notations Spec SimpleConsole.

Lemma overflow_jams_menu_witness :
  test_mode ["simple_console"] = false
  /\ Forall in_int [4]
  /\ forallb (continues unmapped) [4] = true
  /\ ~ in_int 99999999999
  /\ result_of (main unmapped ["simple_console"] ([4] ++ [99999999999; 5]) w0)
     = Spinning.
Proof.
  assert (H1 : test_mode ["simple_console"] = false) by reflexivity.
  assert (Hi : Forall in_int [4])
    by (repeat (apply Forall_cons;
                  [unfold in_int, int_min, int_max; lia|]);
        apply Forall_nil).
  assert (H2 : forallb (continues unmapped) [4] = true) by reflexivity.
  assert (H3 : ~ in_int 99999999999)
    by (unfold in_int, int_min, int_max; lia).
  split; [exact H1|]. split; [exact Hi|]. split; [exact H2|].
  split; [exact H3|].
  exact (proj1 (overflow_jams_menu unmapped ["simple_console"] [4]
                  99999999999 [5] w0 H1 Hi H2 H3)).
Defined.

End FailedStreamExamples.
